(** * Result extraction and degradation chain of the backend connector

    A shallow embedding of [src/utils/backend_connector.py]
    ([BackendConnector]): the text-signal extractors
    ([_extract_recommendations], [_extract_growth_potential],
    [_extract_risk_level]), the normaliser of real-engine output
    ([_process_crewai_result]) and the dispatch with its fallbacks
    ([analyze_company], [_create_intelligent_simulation],
    [_create_fallback_result]).

    Python strings are sequences of Unicode code points; they are modelled
    as lists of code points, so that [len], slicing and [startswith] count
    what Python counts.  String literals of the source are written as UTF-8
    text and decoded by [py]. *)

From Stdlib Require Import ZArith NArith Lia Ascii String.
From stdpp Require Import base decidable option list gmap.

Local Open Scope nat_scope.

(** ** Python strings *)

Module PyStr.

Abbreviation codepoint := N.

Definition nl : codepoint := 10%N.
Definition space : codepoint := 32%N.

(** The value of a continuation byte [10xxxxxx]. *)
Definition cont (b : ascii) : N := N.land (N_of_ascii b) 63.

(** UTF-8 decoding of a literal.  The literals of this file are
    well-formed UTF-8; a stray byte is kept as it is. *)
Fixpoint utf8_decode (s : string) : list codepoint :=
  match s with
  | EmptyString => []
  | String b0 s1 =>
    let n0 := N_of_ascii b0 in
    if (n0 <? 192)%N then n0 :: utf8_decode s1
    else match s1 with
    | EmptyString => [n0]
    | String b1 s2 =>
      if (n0 <? 224)%N
      then (N.land n0 31 * 64 + cont b1)%N :: utf8_decode s2
      else match s2 with
      | EmptyString => [n0; N_of_ascii b1]
      | String b2 s3 =>
        if (n0 <? 240)%N
        then (N.land n0 15 * 4096 + cont b1 * 64 + cont b2)%N
             :: utf8_decode s3
        else match s3 with
        | EmptyString => [n0; N_of_ascii b1; N_of_ascii b2]
        | String b3 s4 =>
          (N.land n0 7 * 262144 + cont b1 * 4096 + cont b2 * 64
           + cont b3)%N :: utf8_decode s4
        end
      end
    end
  end.

(** [s.startswith(p)]. *)
Fixpoint startswith (s p : list codepoint) : bool :=
  match p, s with
  | [], _ => true
  | _ :: _, [] => false
  | a :: p', b :: s' => (a =? b)%N && startswith s' p'
  end.

(** [sub in s]. *)
Fixpoint contains (sub s : list codepoint) : bool :=
  startswith s sub ||
  match s with
  | [] => false
  | _ :: s' => contains sub s'
  end.

(** [s.count(sub)] for a non-empty [sub]: a left-to-right scan for
    non-overlapping occurrences.  [skip] is the number of characters
    still covered by the occurrence found last. *)
Fixpoint count_from (sub s : list codepoint) (skip : nat) : nat :=
  match s with
  | [] => 0
  | _ :: s' =>
    match skip with
    | S k => count_from sub s' k
    | O => if startswith s sub
           then S (count_from sub s' (length sub - 1))
           else count_from sub s' 0
    end
  end.

(** [s.count(sub)]; Python counts [len(s) + 1] empty occurrences. *)
Definition count (sub s : list codepoint) : nat :=
  match sub with
  | [] => S (length s)
  | _ :: _ => count_from sub s 0
  end.

(** The characters [str.strip()] removes: those for which Python's
    [str.isspace()] holds. *)
Definition isspace (c : codepoint) : bool :=
  ((9 <=? c) && (c <=? 13) || (28 <=? c) && (c <=? 32)
   || (c =? 133) || (c =? 160) || (c =? 5760)
   || (8192 <=? c) && (c <=? 8202) || (c =? 8232) || (c =? 8233)
   || (c =? 8239) || (c =? 8287) || (c =? 12288))%N.

Fixpoint lstrip (s : list codepoint) : list codepoint :=
  match s with
  | [] => []
  | c :: s' => if isspace c then lstrip s' else s
  end.

Definition rstrip (s : list codepoint) : list codepoint :=
  rev (lstrip (rev s)).

(** [s.strip()]. *)
Definition strip (s : list codepoint) : list codepoint :=
  rstrip (lstrip s).

(** [s.split(sep)] for a one-character separator: never an empty list. *)
Fixpoint split (sep : codepoint) (s : list codepoint)
  : list (list codepoint) :=
  match s with
  | [] => [[]]
  | c :: s' =>
    if (c =? sep)%N then [] :: split sep s'
    else match split sep s' with
         | l :: ls => (c :: l) :: ls
         | [] => [[c]]
         end
  end.

(** [s.startswith((p1, p2, ...))]. *)
Definition startswith_any (s : list codepoint)
    (ps : list (list codepoint)) : bool :=
  existsb (startswith s) ps.

(** [any(k in s for k in ks)]. *)
Definition contains_any (ks : list (list codepoint))
    (s : list codepoint) : bool :=
  existsb (fun k => contains k s) ks.

(** Truthiness of a string or a list: [not x] is [is_empty x]. *)
Definition is_empty {A} (l : list A) : bool :=
  match l with [] => true | _ :: _ => false end.

(** A text without a line break. *)
Definition single_line (s : list codepoint) : bool :=
  forallb (fun c => negb (c =? nl)%N) s.

(** A text that is not empty and neither begins nor ends with a
    character [strip] removes. *)
Definition is_trimmed (s : list codepoint) : bool :=
  match s with [] => false | a :: _ => negb (isspace a) end
  && match rev s with [] => false | b :: _ => negb (isspace b) end.

(** [str.lower()] on the Basic Latin and Latin-1 Supplement blocks, where
    it maps character by character: [A-Z], [À-Ö] and [Ø-Þ] move 32 up. *)
Definition latin1_lower_cp (c : codepoint) : codepoint :=
  if ((65 <=? c) && (c <=? 90) || (192 <=? c) && (c <=? 214)
      || (216 <=? c) && (c <=? 222))%N
  then (c + 32)%N else c.

Definition latin1_lower (s : list codepoint) : list codepoint :=
  map latin1_lower_cp s.

(** [str.isdigit()] on the same blocks: [0-9] and the superscripts
    two, three and one. *)
Definition latin1_isdigit (c : codepoint) : bool :=
  ((48 <=? c) && (c <=? 57) || (c =? 178) || (c =? 179) || (c =? 185))%N.

(** [s.replace(old, new)] for one-character [old] and [new]. *)
Definition replace (old new : codepoint) (s : list codepoint)
  : list codepoint :=
  map (fun c => if (c =? old)%N then new else c) s.

(** [s.split(sep)] for a separator of any positive length: a left-to-right
    scan that cuts at each occurrence found outside the previous one.
    [skip] counts the characters still covered by the separator found
    last, [piece] holds the current piece in reverse. *)
Fixpoint split_from (sep s : list codepoint) (skip : nat)
    (piece : list codepoint) : list (list codepoint) :=
  match s with
  | [] => [rev piece]
  | c :: s' =>
    match skip with
    | S k => split_from sep s' k piece
    | O => if startswith s sep
           then rev piece :: split_from sep s' (length sep - 1) []
           else split_from sep s' 0 (c :: piece)
    end
  end.

Definition split_str (sep s : list codepoint) : list (list codepoint) :=
  split_from sep s 0 [].

End PyStr.

Abbreviation pystr := (list PyStr.codepoint).
Abbreviation py := PyStr.utf8_decode.

(** The two Unicode tables of the interpreter that the extractors consult.
    They are large and context dependent ([str.lower] can change the length
    of a text), so the embedding takes them as an interface; every property
    below holds for any implementation, the interpreter's included. *)
Class PyUnicode := {
  str_lower : pystr -> pystr;
  chr_isdigit : PyStr.codepoint -> bool
}.

(** The instance used to run the embedding on texts of code points below
    256, where it agrees with the interpreter. *)
Definition latin1 : PyUnicode :=
  {| str_lower := PyStr.latin1_lower; chr_isdigit := PyStr.latin1_isdigit |}.

(** ** TextSignalExtractor: the three extractors

    Each takes the text as the caller may pass it: [None] stands for
    Python's [None], [Some s] for a string. *)

Section Extractors.
Context {U : PyUnicode}.

Definition section_header : pystr := py "recomendaciones estratégicas".

Definition list_markers : list pystr :=
  [py "1."; py "2."; py "3."; py "4."; py "5."; py "-"; py "•"].

Definition digit_markers : list pystr :=
  [py "1."; py "2."; py "3."; py "4."; py "5."].

Definition action_keywords : list pystr :=
  [py "priorizar"; py "implementar"; py "desarrollar"; py "establecer";
   py "mantener"].

(** The answer to a missing or empty text. *)
Definition default_recommendations : list pystr :=
  [py "Revisar análisis detallado";
   py "Implementar estrategias sugeridas";
   py "Monitorear resultados"].

(** The answer when no stage finds anything. *)
Definition canned_recommendations : list pystr :=
  [py "Revisar análisis completo de competencia generado por CrewAI";
   py "Implementar estrategias de personalización identificadas";
   py "Desarrollar canales de venta en línea según recomendaciones";
   py "Establecer métricas de seguimiento sugeridas";
   py "Ejecutar plan de acción de 90 días propuesto"].

(** The inner [for prefix in [...]] loop: the first marker that
    [clean_rec] starts with is cut off and the rest stripped. *)
Fixpoint strip_marker (clean_rec : pystr) (prefixes : list pystr) : pystr :=
  match prefixes with
  | [] => clean_rec
  | prefix :: prefixes' =>
    if PyStr.startswith clean_rec prefix
    then PyStr.strip (drop (length prefix) clean_rec)
    else strip_marker clean_rec prefixes'
  end.

(** [line and not line[0].isdigit() and len(line) > 50]. *)
Definition next_section_line (line : pystr) : bool :=
  match line with
  | [] => false
  | c :: _ => negb (chr_isdigit c) && (50 <? length line)
  end.

(** Stage 1, the loop over the lines of the text.  The two loop variables
    are [in_recommendations_section] and the list collected so far;
    [continue] is the recursive call, [break] returns the list. *)
Fixpoint scan_section (lines : list pystr)
    (in_recommendations_section : bool) (recommendations : list pystr)
  : list pystr :=
  match lines with
  | [] => recommendations
  | raw_line :: lines' =>
    let line := PyStr.strip raw_line in
    if PyStr.contains section_header (str_lower line)
    then scan_section lines' true recommendations
    else if in_recommendations_section
    then
      if PyStr.startswith_any line list_markers
      then
        let clean_rec := strip_marker line list_markers in
        if 20 <? length clean_rec
        then scan_section lines' in_recommendations_section
               (recommendations ++ [clean_rec])
        else scan_section lines' in_recommendations_section recommendations
      else if next_section_line line
      then recommendations
      else scan_section lines' in_recommendations_section recommendations
    else scan_section lines' in_recommendations_section recommendations
  end.

(** Stage 2: stripped lines that name an action verb and have between
    31 and 199 characters. *)
Definition action_lines (lines : list pystr) : list pystr :=
  filter (fun line =>
            Is_true (PyStr.contains_any action_keywords (str_lower line)
                     && (30 <? length line) && (length line <? 200)))
         (map PyStr.strip lines).

(** Stage 3: stripped numbered lines longer than 30 characters, without
    their first two characters. *)
Definition numbered_lines (lines : list pystr) : list pystr :=
  map (fun line => PyStr.strip (drop 2 line))
      (filter (fun line =>
                 Is_true (PyStr.startswith_any line digit_markers
                          && (30 <? length line)))
              (map PyStr.strip lines)).

(** [if not recommendations: <next stage>]. *)
Definition or_else (recommendations next : list pystr) : list pystr :=
  if PyStr.is_empty recommendations then next else recommendations.

Definition extract_recommendations (result_text : option pystr)
  : list pystr :=
  match result_text with
  | None => default_recommendations
  | Some result_text =>
    if PyStr.is_empty result_text then default_recommendations
    else
      let text_lower := str_lower result_text in
      let lines := PyStr.split PyStr.nl result_text in
      let stage1 :=
        if PyStr.contains section_header text_lower
        then scan_section lines false []
        else [] in
      let stage2 := or_else stage1 (action_lines lines) in
      let stage3 := or_else stage2 (numbered_lines lines) in
      let stage4 := or_else stage3 canned_recommendations in
      take 5 stage4
  end.

Definition high_growth_words : list pystr :=
  [py "alto crecimiento"; py "gran potencial"; py "excelente oportunidad"].
Definition medium_growth_words : list pystr :=
  [py "crecimiento moderado"; py "potencial medio"; py "oportunidades"].
Definition expansion_words : list pystr :=
  [py "expansión"; py "diversificar"; py "implementar"; py "fortalecer"].
Definition challenge_words : list pystr :=
  [py "desafío"; py "competencia intensa"; py "riesgo"].

Definition extract_growth_potential (result_text : option pystr) : pystr :=
  match result_text with
  | None => py "Medio"
  | Some result_text =>
    if PyStr.is_empty result_text then py "Medio"
    else
      let text_lower := str_lower result_text in
      if PyStr.contains_any high_growth_words text_lower then py "Alto"
      else if PyStr.contains_any medium_growth_words text_lower
      then py "Medio"
      else if PyStr.contains_any expansion_words text_lower
      then py "Medio-Alto"
      else if PyStr.contains_any challenge_words text_lower
      then py "Moderado"
      else py "Medio"
  end.

Definition threat_indicators : list pystr :=
  [py "amenaza"; py "riesgo"; py "desafío"; py "competencia intensa";
   py "cambios regulatorios"].

(** [sum(1 for indicator in threat_indicators if indicator in text_lower)]. *)
Definition threat_count (text_lower : pystr) : nat :=
  list_sum (map (fun _ => 1)
              (filter (fun indicator =>
                         Is_true (PyStr.contains indicator text_lower))
                      threat_indicators)).

Definition opportunities (text_lower : pystr) : nat :=
  PyStr.count (py "oportunidad") text_lower.

Definition threats (text_lower : pystr) : nat :=
  PyStr.count (py "amenaza") text_lower
  + PyStr.count (py "riesgo") text_lower.

Definition extract_risk_level (result_text : option pystr) : pystr :=
  match result_text with
  | None => py "Bajo"
  | Some result_text =>
    if PyStr.is_empty result_text then py "Bajo"
    else
      let text_lower := str_lower result_text in
      if (3 <=? threat_count text_lower)
         || (opportunities text_lower <? threats text_lower)
      then py "Alto"
      else if (threat_count text_lower =? 2)
              || (threats text_lower =? opportunities text_lower)
      then py "Medio"
      else py "Bajo"
  end.

End Extractors.

(** ** Values, requests and results *)

(** The values held by a request dictionary ([Dict[str, Any]]): strings,
    as the form sends them, and [None], which the connector itself guards
    against. *)
Inductive pyval : Type :=
| PNone
| PStr (s : pystr).

(** [str(v)], also what an f-string prints for [v]. *)
Definition py_str (v : pyval) : pystr :=
  match v with
  | PNone => py "None"
  | PStr s => s
  end.

(** [bool(v)]. *)
Definition truthy (v : pyval) : bool :=
  match v with
  | PNone => false
  | PStr s => negb (PyStr.is_empty s)
  end.

(** The argument of [analyze_company].  [entries] are the keys bound to a
    string or to [None]; [nested] is the dictionary bound to the key
    ["company_data"], when the request has that key (the form handler
    sends the company fields there). *)
Record request : Type := Request {
  entries : gmap pystr pyval;
  nested : option (gmap pystr pyval)
}.

(** [d.get(key, default)]. *)
Definition get (d : gmap pystr pyval) (key : pystr) (dflt : pyval) : pyval :=
  default dflt (d !! key).

(** Exceptions: the class name and [str(e)]. *)
Record exn : Type := Exn { exn_type : pystr; exn_msg : pystr }.

(** A computation that returns or raises. *)
Inductive outcome (A : Type) : Type :=
| Return (a : A)
| Raise (e : exn).
Arguments Return {A} a.
Arguments Raise {A} e.

#[export] Instance outcome_ret : MRet outcome := fun A a => Return a.
#[export] Instance outcome_bind : MBind outcome := fun A B k c =>
  match c with
  | Return a => k a
  | Raise e => Raise e
  end.

(** What the engine hands back ([resultado]), as far as the connector
    looks at it: its truth value, [str(resultado.raw)] and
    [str(resultado.output)] when the attribute exists, and
    [str(resultado)]. *)
Record crew_output : Type := CrewOutput {
  is_truthy : bool;
  raw : option pystr;
  output : option pystr;
  text : pystr
}.

(** The engine ([self.analyzer]): the lookup
    [analyzer.templates[analysis_type]['name']] and [execute_analysis()],
    run on the configuration stored in the analyzer.  Either may raise. *)
Record analyzer : Type := Analyzer {
  template_name : pystr -> outcome pystr;
  execute_analysis : gmap pystr pyval -> outcome crew_output
}.

(** The attributes of [BackendConnector] that [analyze_company] reads. *)
Record connector : Type := Connector {
  components_loaded : bool;
  crewai_real : bool;
  the_analyzer : option analyzer
}.

(** The ["metrics"] dictionary: the score and the three labels the
    report prints; a stage that does not set a label leaves it [None].
    (The simulation's further fixed labels are not modelled.) *)
Record metrics : Type := Metrics {
  overall_score : Z;
  confidence : option pystr;
  growth_potential : option pystr;
  risk_level : option pystr
}.

(** The ["analysis"] dictionary.  The keys ["detailed_analysis"],
    ["swot_analysis"] and ["crewai_output"] are not modelled. *)
Record analysis : Type := Analysis {
  executive_summary : pystr;
  analysis_metrics : metrics;
  recommendations : list pystr;
  next_steps : option (list pystr);
  raw_result : option pystr
}.

(** The dictionary [analyze_company] returns; a key a stage does not set
    is [None].  Costs are in hundredths.  The keys ["processing_time"],
    ["pdf_ready"], ["note"] and ["details"] are not modelled. *)
Record result : Type := Result {
  success : bool;
  error : option pystr;
  result_analysis : option analysis;
  source : option pystr;
  estimated_cost : option Z;
  simulation_mode : option bool;
  crew_result : option pystr
}.

Definition source_real : pystr := py "CrewAI Real System".
Definition source_simulation : pystr :=
  py "AgentFlow Manager FASE 3 (Simulación Inteligente)".
Definition source_fallback : pystr := py "Sistema de Fallback".

(** ** ResultNormalizer and DegradationChain *)

Section Connector.
Context {U : PyUnicode}.

Definition is_system_ready (self : connector) : bool :=
  components_loaded self.

Definition analysis_type_mapping : list (pystr * pystr) :=
  [(py "🎯 Análisis Básico (5-8 min)", py "market");
   (py "💰 Análisis Financiero (6-10 min)", py "financial");
   (py "🌍 Estrategia de Expansión (8-12 min)", py "expansion");
   (py "💻 Transformación Digital (10-15 min)", py "digital");
   (py "⚙️ Optimización Operacional (7-11 min)", py "operations");
   (py "📊 Planificación Estratégica (12-18 min)", py "strategic");
   (py "🏢 Análisis Completo (25-40 min)", py "complete")].

(** The [for key, value in mapping.items()] loop. *)
Fixpoint lookup_mapping (frontend_type : pystr)
    (mapping : list (pystr * pystr)) : option pystr :=
  match mapping with
  | [] => None
  | (key, value) :: mapping' =>
    if PyStr.contains frontend_type key || PyStr.contains key frontend_type
    then Some value
    else lookup_mapping frontend_type mapping'
  end.

Definition map_analysis_type (frontend_type : pyval) : pystr :=
  if negb (truthy frontend_type) then py "market"
  else
    let frontend_type := py_str frontend_type in
    match lookup_mapping frontend_type analysis_type_mapping with
    | Some value => value
    | None =>
      let l := str_lower frontend_type in
      if PyStr.contains (py "financiero") l
         || PyStr.contains (py "financial") l then py "financial"
      else if PyStr.contains (py "expansion") l
              || PyStr.contains (py "expansión") l then py "expansion"
      else if PyStr.contains (py "digital") l then py "digital"
      else if PyStr.contains (py "operacion") l
              || PyStr.contains (py "operation") l then py "operations"
      else if PyStr.contains (py "estrateg") l
              || PyStr.contains (py "strategic") l then py "strategic"
      else if PyStr.contains (py "completo") l
              || PyStr.contains (py "complete") l then py "complete"
      else py "market"
    end.

(** [x[:500] + "..." if len(x) > 500 else x]. *)
Definition truncate_500 (x : pystr) : pystr :=
  if 500 <? length x then take 500 x ++ py "..." else x.

(** The text [_process_crewai_result] works on: the [raw] attribute, else
    the [output] attribute, else [str(resultado) if resultado else ""]. *)
Definition selected_text (resultado : crew_output) : pystr :=
  match raw resultado with
  | Some s => s
  | None =>
    match output resultado with
    | Some s => s
    | None => if is_truthy resultado then text resultado else []
    end
  end.

(** [_process_crewai_result].  Its second argument, [analysis_config],
    only selects the agent names listed under ["detailed_analysis"], which
    is not modelled, so it is left out here. *)
Definition process_crewai_result (resultado : crew_output) : analysis :=
  let resultado_str := selected_text resultado in
  {| executive_summary := truncate_500 resultado_str;
     analysis_metrics :=
       {| overall_score := 85%Z;
          confidence :=
            Some (if 500 <? length resultado_str
                  then py "Alta" else py "Media");
          growth_potential :=
            Some (extract_growth_potential (Some resultado_str));
          risk_level := Some (extract_risk_level (Some resultado_str)) |};
     recommendations := extract_recommendations (Some resultado_str);
     next_steps :=
       Some [py "Revisar análisis detallado generado por CrewAI";
             py "Implementar recomendaciones priorizadas";
             py "Monitorear resultados y ajustar estrategia"];
     raw_result := Some resultado_str |}.

(** [_calculate_real_cost], in hundredths: the base cost 0.10 times 10,
    5 or 3 by analysis type, times 1.5 for a long ["additional_info"].
    [analysis_type.lower()] raises on a value that is not a string. *)
Definition calculate_real_cost (config : gmap pystr pyval) : outcome Z :=
  match get config (py "analysis_type") (PStr (py "basico")) with
  | PNone =>
    Raise (Exn (py "AttributeError")
               (py "'NoneType' object has no attribute 'lower'"))
  | PStr analysis_type =>
    let l := str_lower analysis_type in
    let base_cost : Z :=
      (if PyStr.contains (py "completo") l then 100
       else if PyStr.contains (py "estrategico") l then 50
       else if PyStr.contains (py "digital") l then 30
       else 10)%Z in
    let additional_text :=
      match config !! py "additional_info" with
      | Some v => py_str v
      | None => py "{}"
      end in
    mret (if 500 <? length additional_text
          then (base_cost * 3 / 2)%Z else base_cost)
  end.

(** One line of a triple-quoted template: the sixteen blanks of the
    source indentation, the text and the line break. *)
Definition template_line (line : pystr) : pystr :=
  replicate 16 PyStr.space ++ line ++ [PyStr.nl].

Definition simulation_summary
    (company_name industry location analysis_type : pystr) : pystr :=
  [PyStr.nl]
  ++ template_line (py "ANÁLISIS EMPRESARIAL AVANZADO - " ++ company_name)
  ++ template_line (py "===============================================")
  ++ template_line []
  ++ template_line (py "**Empresa**: " ++ company_name)
  ++ template_line (py "**Sector**: " ++ industry)
  ++ template_line (py "**Ubicación**: " ++ location)
  ++ template_line (py "**Tipo de Análisis**: " ++ analysis_type)
  ++ template_line []
  ++ template_line (py "RESUMEN EJECUTIVO:")
  ++ template_line
       (py "El análisis de " ++ company_name ++ py " en el sector "
        ++ industry
        ++ py " revela un panorama empresarial con potencial de crecimiento significativo. ")
  ++ template_line
       (py "La empresa presenta características sólidas para el desarrollo en su mercado objetivo, con oportunidades claras de optimización ")
  ++ template_line (py "y expansión estratégica.")
  ++ template_line []
  ++ template_line (py "CONTEXTO DE MERCADO:")
  ++ template_line
       (py "El sector " ++ industry
        ++ py " muestra tendencias positivas con oportunidades de digitalización y mejora operacional. ")
  ++ template_line
       (py "La ubicación en " ++ location
        ++ py " proporciona ventajas competitivas específicas para el tipo de negocio analizado.")
  ++ template_line []
  ++ template_line (py "METODOLOGÍA:")
  ++ template_line
       (py "Este análisis ha sido generado utilizando la metodología AgentFlow Manager FASE 3, aplicando patrones de análisis ")
  ++ template_line
       (py "empresarial reconocidos y adaptados específicamente para el contexto de "
        ++ company_name ++ py ".")
  ++ replicate 16 PyStr.space.

Definition simulation_recommendations
    (company_name industry location : pystr) : list pystr :=
  [py "Implementar estrategia de digitalización progresiva adaptada al sector "
     ++ industry;
   py "Optimizar procesos operacionales core de " ++ company_name
     ++ py " para mejorar eficiencia";
   py "Desarrollar plan de expansión regional desde base en " ++ location;
   py "Establecer sistema de métricas KPI avanzado para monitoreo continuo";
   py "Invertir en capacitación del equipo en nuevas tecnologías del sector";
   py "Explorar alianzas estratégicas con empresas complementarias en "
     ++ industry;
   py "Implementar sistema CRM avanzado para optimización de ventas";
   py "Desarrollar propuesta de valor diferenciada para mercado objetivo"].

Definition simulation_next_steps : list pystr :=
  [py "Priorizar recomendaciones según impacto y recursos disponibles";
   py "Desarrollar plan de implementación detallado por fases";
   py "Establecer sistema de seguimiento y métricas de progreso";
   py "Evaluar necesidades de inversión para cada iniciativa";
   py "Configurar sistema CrewAI real para análisis más profundos"].

(** [_create_intelligent_simulation].  It reads the top-level keys of
    the request; the dictionary literal is evaluated in order, so the
    cost, which may raise, comes after the analysis. *)
Definition create_intelligent_simulation (company_data : request)
  : outcome result :=
  let d := entries company_data in
  let company_name := py_str (get d (py "name") (PStr (py "Empresa"))) in
  let industry := py_str (get d (py "industry") (PStr (py "General"))) in
  let location := py_str (get d (py "location") (PStr (py "Ubicación"))) in
  let analysis_type :=
    py_str (get d (py "analysis_type") (PStr (py "Básico"))) in
  cost ← calculate_real_cost d;
  mret {| success := true;
          error := None;
          result_analysis := Some
            {| executive_summary :=
                 simulation_summary company_name industry location
                   analysis_type;
               analysis_metrics :=
                 {| overall_score := 82%Z;
                    confidence := None;
                    growth_potential := Some (py "Alto");
                    risk_level := Some (py "Medio-Bajo") |};
               recommendations :=
                 simulation_recommendations company_name industry location;
               next_steps := Some simulation_next_steps;
               raw_result := None |};
          source := Some source_simulation;
          estimated_cost := Some cost;
          simulation_mode := Some true;
          crew_result := None |}.

(** [_create_fallback_result]; the error message only goes into the
    keys that are not modelled. *)
Definition create_fallback_result (company_data : request)
    (error_msg : pystr) : result :=
  {| success := true;
     error := None;
     result_analysis := Some
       {| executive_summary :=
            py "Análisis de fallback para "
            ++ py_str (get (entries company_data) (py "name")
                         (PStr (py "empresa")));
          analysis_metrics :=
            {| overall_score := 70%Z;
               confidence := Some (py "Media");
               growth_potential := None;
               risk_level := None |};
          recommendations :=
            [py "Verificar configuración del sistema CrewAI";
             py "Revisar conectividad y dependencias";
             py "Intentar análisis nuevamente"];
          next_steps := None;
          raw_result := None |};
     source := Some source_fallback;
     estimated_cost := Some 0%Z;
     simulation_mode := Some true;
     crew_result := None |}.

(** The configuration handed to the engine ([analysis_config]). *)
Definition build_analysis_config (company_data : request)
  : gmap pystr pyval :=
  let empresa_datos :=
    match nested company_data with
    | Some d => d
    | None => entries company_data
    end in
  let top := entries company_data in
  let get2 k1 k2 dflt :=
    get empresa_datos k1 (get empresa_datos k2 (PStr dflt)) in
  list_to_map
    [(py "nombre", get2 (py "nombre") (py "name") (py "Empresa"));
     (py "industria", get2 (py "industria") (py "industry") (py "General"));
     (py "ubicacion", get2 (py "ubicacion") (py "location") (py "No especificada"));
     (py "language", get top (py "language") (PStr (py "es")));
     (py "analysis_type",
      PStr (map_analysis_type
              (get top (py "analysis_type") (PStr (py "market")))));
     (py "descripcion",
      PStr (py "Empresa en el sector "
            ++ py_str (get2 (py "industria") (py "industry") (py "general"))));
     (py "productos_servicios", get2 (py "productos_servicios") (py "products") []);
     (py "productos", get2 (py "productos_servicios") (py "products") []);
     (py "competencia_principal",
      get2 (py "competencia_principal") (py "competitors") []);
     (py "competidores", get2 (py "competencia_principal") (py "competitors") []);
     (py "retos", get2 (py "retos") (py "challenges") []);
     (py "desafios", get2 (py "retos") (py "challenges") []);
     (py "objetivos", get2 (py "objetivos") (py "goals") []);
     (py "prioridad", get top (py "priority") (PStr (py "Estándar")));
     (py "clientes", PStr (py "B2B y B2C"));
     (py "canales_venta", PStr (py "Múltiples canales"));
     (py "tamano", PStr (py "Mediana empresa"));
     (py "anos_operacion", PStr (py "Varios años"))].

(** The body of the inner [try]: the engine is configured, the template
    name is looked up for the log line, the engine runs, and a truthy
    [resultado] is normalised; a falsy one gives the fallback record. *)
Definition run_engine (engine : analyzer) (company_data : request)
    (analysis_config : gmap pystr pyval) : outcome result :=
  _ ← template_name engine
        (py_str (get analysis_config (py "analysis_type") PNone));
  resultado ← execute_analysis engine analysis_config;
  if is_truthy resultado
  then
    let analysis_result := process_crewai_result resultado in
    cost ← calculate_real_cost analysis_config;
    mret {| success := true;
            error := None;
            result_analysis := Some analysis_result;
            source := Some source_real;
            estimated_cost := Some cost;
            simulation_mode := Some false;
            crew_result := Some (truncate_500 (text resultado)) |}
  else mret (create_fallback_result company_data
               (py "Resultado vacío de CrewAI")).

(** The body of the outer [try]. *)
Definition analyze_company_body (self : connector) (company_data : request)
  : outcome result :=
  let analysis_config := build_analysis_config company_data in
  match crewai_real self, the_analyzer self with
  | true, Some engine =>
    match run_engine engine company_data analysis_config with
    | Return r => mret r
    | Raise crewai_error => create_intelligent_simulation company_data
    end
  | _, _ => create_intelligent_simulation company_data
  end.

Definition not_ready_result : result :=
  {| success := false;
     error := Some (py "Sistema no está listo. Verifica configuración.");
     result_analysis := None;
     source := None;
     estimated_cost := None;
     simulation_mode := None;
     crew_result := None |}.

Definition error_result (e : exn) : result :=
  {| success := false;
     error := Some (py "Error en análisis: " ++ exn_msg e);
     result_analysis := None;
     source := None;
     estimated_cost := None;
     simulation_mode := None;
     crew_result := None |}.

Definition analyze_company (self : connector) (company_data : request)
  : result :=
  if negb (is_system_ready self) then not_ready_result
  else
    match analyze_company_body self company_data with
    | Return r => r
    | Raise e => error_result e
    end.

End Connector.

(** The keys a company name is read from: ["nombre"] and ["name"] of the
    company fields (the nested dictionary, or the request itself without
    one) and ["name"] of the request. *)
Definition missing_name (company_data : request) : Prop :=
  entries company_data !! py "name" = None
  /\ entries company_data !! py "nombre" = None
  /\ forall d, nested company_data = Some d ->
               d !! py "nombre" = None /\ d !! py "name" = None.

(** ** Further functions of the connector *)

(** The seven analysis types of the engine, the values of the mapping in
    [_map_analysis_type]. *)
Definition analysis_types : list pystr :=
  [py "market"; py "financial"; py "expansion"; py "digital";
   py "operations"; py "strategic"; py "complete"].

Definition agent_mapping : list (pystr * list pystr) :=
  [(py "market",
    [py "Investigador de Mercado"; py "Analista de Tendencias";
     py "Estratega de Mercado"]);
   (py "financial",
    [py "Analista Financiero"; py "Auditor de Costos";
     py "Estratega de Inversión"]);
   (py "expansion",
    [py "Investigador de Mercado"; py "Analista de Ubicaciones";
     py "Estratega de Expansión"]);
   (py "digital",
    [py "Auditor Digital"; py "Especialista E-commerce";
     py "Estratega de Marketing"]);
   (py "operations",
    [py "Analista de Inventario"; py "Especialista en Logística";
     py "Optimizador de Ventas"]);
   (py "strategic",
    [py "Investigador de Mercado"; py "Estratega de Tecnología";
     py "Planificador Financiero"]);
   (py "complete",
    [py "Manager"; py "Investigador"; py "Estratega"; py "Analista";
     py "Especialista Digital"])].

(** [_get_agents_for_type]: [agent_mapping.get(analysis_type, [...])]. *)
Definition get_agents_for_type (analysis_type : pystr) : list pystr :=
  default [py "Agente Generalista"]
    ((list_to_map agent_mapping : gmap pystr (list pystr)) !! analysis_type).

(** An entry of [get_cost_estimation]: minutes, and costs in hundredths. *)
Record estimation : Type := Estimation {
  time_min : Z;
  time_max : Z;
  cost_min : Z;
  cost_max : Z;
  pages : pystr
}.

Definition estimations : list (pystr * estimation) :=
  [(py "🎯 Análisis Básico", Estimation 5 8 10 25 (py "8-12"));
   (py "💰 Análisis Financiero", Estimation 6 10 15 40 (py "12-18"));
   (py "🌍 Estrategia de Expansión", Estimation 8 12 20 50 (py "15-22"));
   (py "💻 Transformación Digital", Estimation 10 15 30 70 (py "18-25"));
   (py "⚙️ Optimización Operacional", Estimation 7 11 25 60 (py "14-20"));
   (py "📊 Planificación Estratégica", Estimation 12 18 40 80 (py "20-30"));
   (py "🏢 Análisis Completo", Estimation 25 40 100 250 (py "35-50"))].

Definition default_estimation : estimation :=
  Estimation 5 10 20 50 (py "10-15").

(** [get_cost_estimation]: [estimations.get(analysis_type, {...})]. *)
Definition get_cost_estimation (analysis_type : pystr) : estimation :=
  default default_estimation
    ((list_to_map estimations : gmap pystr estimation) !! analysis_type).

Section ReportNames.
Context {U : PyUnicode}.

(** The company name [generate_pdf] works with:
    [analysis_result.get("company_name", "Empresa")], replaced by
    ["Empresa"] when falsy, then [str]. *)
Definition pdf_company_name (company_name : option pyval) : pystr :=
  let company_name := default (PStr (py "Empresa")) company_name in
  if negb (truthy company_name) then py "Empresa" else py_str company_name.

(** [f"Análisis de {company_name}"]. *)
Definition pdf_titulo (company_name : option pyval) : pystr :=
  py "Análisis de " ++ pdf_company_name company_name.

(** [f"reporte_{company_name.lower().replace(' ', '_')}.pdf"]. *)
Definition pdf_archivo_salida (company_name : option pyval) : pystr :=
  py "reporte_"
  ++ PyStr.replace PyStr.space 95%N (str_lower (pdf_company_name company_name))
  ++ py ".pdf".

End ReportNames.

(** ** The report generator ([src/utils/pdf_generator.py]) *)

(** The paragraphs [add_main_content] makes of the executive summary: the
    stripped text is cut at blank lines, each piece is stripped, its line
    breaks become blanks, and empty pieces are dropped. *)
Definition summary_paragraphs (executive_summary : pystr) : list pystr :=
  let summary_text := PyStr.strip executive_summary in
  let paragraphs := PyStr.split_str [PyStr.nl; PyStr.nl] summary_text in
  filter (fun clean_para => Is_true (negb (PyStr.is_empty clean_para)))
    (map (fun para => PyStr.replace PyStr.nl PyStr.space (PyStr.strip para))
       (filter (fun para => Is_true (negb (PyStr.is_empty (PyStr.strip para))))
          paragraphs)).

(** ** The form handler ([src/app.py]) *)

(** What the session state holds: form texts, the completion flag and
    the stored result. *)
Inductive session_value : Type :=
| SStr (s : pystr)
| SBool (b : bool)
| SResult (r : result).

Definition keys_to_clear : list pystr :=
  [py "empresa_nombre"; py "empresa_industria"; py "empresa_ubicacion";
   py "idioma"; py "tipo_analisis"; py "prioridad"; py "productos";
   py "competidores"; py "retos"; py "objetivos"; py "analysis_completed";
   py "analysis_result"].

(** The defaults [limpiar_formulario] writes back, in source order. *)
Definition form_defaults : list (pystr * session_value) :=
  [(py "empresa_nombre", SStr []);
   (py "empresa_industria", SStr (py "Seleccionar..."));
   (py "empresa_ubicacion", SStr []);
   (py "idioma", SStr (py "🇪🇸 Español"));
   (py "tipo_analisis", SStr (py "Seleccionar..."));
   (py "prioridad", SStr (py "Estándar"));
   (py "productos", SStr []);
   (py "competidores", SStr []);
   (py "retos", SStr []);
   (py "objetivos", SStr [])].

(** [limpiar_formulario] on [st.session_state]: every key to clear that
    is present is deleted, then the ten defaults are assigned.  (The
    closing [st.rerun()] restarts the script and is not modelled.) *)
Definition limpiar_formulario (session_state : gmap pystr session_value)
  : gmap pystr session_value :=
  let cleared :=
    foldl (fun st key => delete key st) session_state keys_to_clear in
  foldl (fun st kv => <[kv.1 := kv.2]> st) cleared form_defaults.

(** The arguments of [ejecutar_analisis_empresarial], the values of the
    form widgets. *)
Record form : Type := Form {
  nombre : pystr;
  industria : pystr;
  ubicacion : pystr;
  idioma : pystr;
  tipo_analisis : pystr;
  prioridad : pystr;
  productos : pystr;
  competidores : pystr;
  retos : pystr;
  objetivos : pystr
}.

(** The condition under which [show_analysis_page] offers the run button:
    [empresa_nombre and empresa_industria != "Seleccionar..." and
    tipo_analisis != "Seleccionar..."]. *)
Definition form_is_valid (f : form) : bool :=
  negb (PyStr.is_empty (nombre f))
  && negb (bool_decide (industria f = py "Seleccionar..."))
  && negb (bool_decide (tipo_analisis f = py "Seleccionar...")).

Definition analysis_mapping : list (pystr * pystr) :=
  [(py "🎯 Análisis Básico (5-8 min)", py "market");
   (py "🏪 Expansión (5-10 min)", py "expansion");
   (py "💻 Digital (7-12 min)", py "digital");
   (py "⚙️ Operaciones (6-10 min)", py "operations");
   (py "🎯 Estratégico (8-15 min)", py "strategic");
   (py "💰 Financiero (5-8 min)", py "financial");
   (py "📊 Mercado (6-12 min)", py "market");
   (py "🔄 Completo (20-40 min)", py "complete")].

(** The request [ejecutar_analisis_empresarial] builds ([analysis_config]
    there): the company fields nested under ["company_data"], the mapped
    analysis type, the language and the priority. *)
Definition form_request (f : form) : request :=
  let company_data : gmap pystr pyval :=
    list_to_map
      [(py "nombre", PStr (nombre f));
       (py "industria", PStr (industria f));
       (py "ubicacion", PStr (ubicacion f));
       (py "productos_servicios", PStr (productos f));
       (py "competencia_principal", PStr (competidores f));
       (py "retos", PStr (retos f));
       (py "objetivos", PStr (objetivos f))] in
  let analysis_type :=
    default (py "market")
      ((list_to_map analysis_mapping : gmap pystr pystr)
         !! tipo_analisis f) in
  let language :=
    if PyStr.contains (py "Español") (idioma f) then py "es" else py "en" in
  {| entries :=
       list_to_map
         [(py "analysis_type", PStr analysis_type);
          (py "language", PStr language);
          (py "priority", PStr (prioridad f))];
     nested := Some company_data |}.

Section FormHandler.
Context {U : PyUnicode}.

(** [ejecutar_analisis_empresarial] as a change of the session state.
    [backend_available] is the module flag [BACKEND_AVAILABLE];
    [get_backend_connector] is the outcome of constructing the connector.
    A successful result is stored and flagged; in every other case only a
    message is shown and the session state stays as it is. *)
Definition ejecutar_analisis_empresarial (backend_available : bool)
    (get_backend_connector : outcome connector) (f : form)
    (session_state : gmap pystr session_value)
  : gmap pystr session_value :=
  if negb backend_available then session_state
  else
    match get_backend_connector with
    | Raise e => session_state
    | Return backend =>
      let resultado := analyze_company backend (form_request f) in
      if success resultado
      then <[py "analysis_completed" := SBool true]>
             (<[py "analysis_result" := SResult resultado]> session_state)
      else session_state
    end.

End FormHandler.

(** The threat occurrences as the specification words them: the
    occurrences of every word of the threat vocabulary.  The code counts
    two of the five words only ([threats]), and its keyword count
    ([threat_count]) is the number of distinct words present. *)
Definition vocabulary_occurrences (text_lower : pystr) : nat :=
  list_sum (map (fun indicator => PyStr.count indicator text_lower)
              threat_indicators).

(** A text fit to be printed as one list entry: not empty, one line. *)
Definition printable_entry (r : pystr) : Prop :=
  r <> [] /\ PyStr.single_line r = true.

(** ** Sample inputs *)

Module Samples.

(** An engine stub that raises on every call. *)
Definition failing_engine : analyzer :=
  {| template_name := fun _ => Return (py "Análisis de Mercado");
     execute_analysis := fun _ =>
       Raise (Exn (py "RuntimeError") (py "engine down")) |}.

(** A connector in real mode on top of the failing engine. *)
Definition failing_connector : connector :=
  {| components_loaded := true;
     crewai_real := true;
     the_analyzer := Some failing_engine |}.

(** A connector without the engine (simulation mode). *)
Definition simulation_connector : connector :=
  {| components_loaded := true;
     crewai_real := false;
     the_analyzer := None |}.

(** [{}]: no company name, no other key. *)
Definition empty_request : request :=
  {| entries := ∅; nested := None |}.

(** [{"name": "Acme", "analysis_type": None}]. *)
Definition none_type_request : request :=
  {| entries := <[py "name" := PStr (py "Acme")]>
                  (<[py "analysis_type" := PNone]> ∅);
     nested := None |}.

Definition block_header : pystr := py "Recomendaciones Estratégicas:".

(** The header line followed by two numbered items on their own lines. *)
Definition numbered_block (x y : pystr) : pystr :=
  block_header ++ [PyStr.nl]
  ++ (py "1. " ++ x) ++ [PyStr.nl]
  ++ (py "2. " ++ y).

(** The text of the scenario: a header and two short numbered items. *)
Definition literal_block : pystr :=
  numbered_block (py "Do X") (py "Do Y").

(** The same block with two items of more than twenty characters. *)
Definition long_block : pystr :=
  numbered_block (py "Abrir una tienda en línea propia")
                 (py "Renegociar los contratos de suministro").

(** An engine result whose [raw] attribute is the empty string. *)
Definition empty_raw_output : crew_output :=
  {| is_truthy := true; raw := Some []; output := None;
     text := py "CrewOutput" |}.

End Samples.

Module MoreSamples.

(** The result of an engine that has nothing to say: falsy, no [raw] and
    no [output] attribute. *)
Definition empty_result : crew_output :=
  {| is_truthy := false; raw := None; output := None; text := [] |}.

(** An engine that answers with the empty result. *)
Definition silent_engine : analyzer :=
  {| template_name := fun _ => Return (py "Análisis de Mercado");
     execute_analysis := fun _ => Return empty_result |}.

Definition silent_connector : connector :=
  {| components_loaded := true;
     crewai_real := true;
     the_analyzer := Some silent_engine |}.

(** The result of an engine that answers with a short report. *)
Definition short_report : crew_output :=
  {| is_truthy := true;
     raw := Some (py "Hay una gran oportunidad de expansión");
     output := None;
     text := py "CrewOutput" |}.

Definition answering_engine : analyzer :=
  {| template_name := fun _ => Return (py "Análisis de Mercado");
     execute_analysis := fun _ => Return short_report |}.

Definition answering_connector : connector :=
  {| components_loaded := true;
     crewai_real := true;
     the_analyzer := Some answering_engine |}.

(** A filled-in form. *)
Definition acme_form : form :=
  {| nombre := py "Acme";
     industria := py "Tecnología";
     ubicacion := py "Lima";
     idioma := py "🇪🇸 Español";
     tipo_analisis := py "💻 Digital (7-12 min)";
     prioridad := py "Estándar";
     productos := [];
     competidores := [];
     retos := [];
     objetivos := [] |}.

End MoreSamples.

(** ** Properties of the string operations *)

Module PyStrFacts.
Import PyStr.

Lemma contains_tail sub c s :
  contains sub (c :: s) = false -> contains sub s = false.
Proof. simpl. intros H. apply orb_false_elim in H. tauto. Qed.

Lemma contains_head sub s :
  contains sub s = false -> startswith s sub = false.
Proof. destruct s; simpl; intros H; apply orb_false_elim in H; tauto. Qed.

(** A text without any occurrence of [sub] counts none. *)
Lemma count_from_absent sub s skip :
  contains sub s = false -> count_from sub s skip = 0.
Proof.
  revert skip. induction s as [|c s IH]; intros skip H; [done|].
  pose proof (contains_head _ _ H) as Hhd.
  pose proof (contains_tail _ _ _ H) as Htl.
  destruct skip; cbn [count_from].
  - rewrite Hhd. by apply IH.
  - by apply IH.
Qed.

Lemma count_absent sub s :
  sub <> [] -> contains sub s = false -> count sub s = 0.
Proof.
  intros Hne H. destruct sub; [done|]. by apply count_from_absent.
Qed.

Lemma split_app_line s t :
  single_line s = true -> split nl (s ++ nl :: t) = s :: split nl t.
Proof.
  induction s as [|c s IH]; cbn [single_line forallb app split].
  - intros _. by rewrite N.eqb_refl.
  - intros [Hc Hs]%andb_true_iff. apply negb_true_iff in Hc.
    rewrite Hc, (IH Hs). reflexivity.
Qed.

Lemma split_single_line s : single_line s = true -> split nl s = [s].
Proof.
  induction s as [|c s IH]; cbn [single_line forallb split]; [done|].
  intros [Hc Hs]%andb_true_iff. apply negb_true_iff in Hc.
  rewrite Hc, (IH Hs). reflexivity.
Qed.

Lemma single_line_app s t :
  single_line s = true -> single_line t = true ->
  single_line (s ++ t) = true.
Proof.
  unfold single_line. intros Hs Ht. by rewrite forallb_app, Hs, Ht.
Qed.

(** [strip] leaves a trimmed text alone. *)
Lemma strip_trimmed s : is_trimmed s = true -> strip s = s.
Proof.
  unfold is_trimmed, strip, rstrip.
  intros [Hhead Hlast]%andb_true_iff.
  destruct s as [|a s]; [done|]. apply negb_true_iff in Hhead.
  cbn [lstrip]. rewrite Hhead.
  destruct (rev (a :: s)) as [|b r] eqn:E; [done|].
  apply negb_true_iff in Hlast. cbn [lstrip]. rewrite Hlast.
  by rewrite <- E, rev_involutive.
Qed.

(** Blanks in front of a trimmed text are stripped off. *)
Lemma strip_blank_cons c s :
  isspace c = true -> is_trimmed s = true -> strip (c :: s) = s.
Proof.
  intros Hc Hs. pose proof (strip_trimmed s Hs) as Hstrip.
  unfold strip in *. cbn [lstrip]. by rewrite Hc.
Qed.

(** A trimmed text stays trimmed behind a prefix that starts with a
    character [strip] keeps. *)
Lemma is_trimmed_prefixed a p s :
  isspace a = false -> is_trimmed s = true ->
  is_trimmed ((a :: p) ++ s) = true.
Proof.
  unfold is_trimmed. intros Ha [_ Hlast]%andb_true_iff.
  cbn [app]. rewrite Ha. cbn [negb andb].
  change (a :: p ++ s) with ((a :: p) ++ s). rewrite rev_app_distr.
  by destruct (rev s) as [|b r].
Qed.

End PyStrFacts.

(** ** Properties of the extractors *)

Section ExtractorFacts.
Context {U : PyUnicode}.

Lemma or_else_nonempty (recs next : list pystr) :
  next <> [] -> or_else recs next <> [].
Proof. intros Hn. by destruct recs. Qed.

Lemma threat_count_length (text_lower : pystr) :
  threat_count text_lower
  = length (filter (fun indicator =>
                      Is_true (PyStr.contains indicator text_lower))
                   threat_indicators).
Proof.
  unfold threat_count.
  induction (filter _ threat_indicators) as [|x l IH]; simpl; congruence.
Qed.


(** Whatever the stages find, the final list has 1 to 5 entries: the
    canned list closes the cascade and [[:5]] cuts it. *)
Lemma extract_recommendations_length (result_text : option pystr) :
  1 <= length (extract_recommendations result_text) <= 5.
Proof.
  destruct result_text as [result_text|]; [|cbn; lia].
  unfold extract_recommendations.
  destruct (PyStr.is_empty result_text); [cbn; lia|].
  cbv zeta.
  set (stage3 := or_else _ (numbered_lines _)).
  assert (Hne : or_else stage3 canned_recommendations <> [])
    by (by apply or_else_nonempty).
  rewrite length_take.
  destruct (or_else stage3 canned_recommendations); [done|].
  cbn [length]. lia.
Qed.

(** One turn of the stage-1 loop on a header line. *)
Lemma scan_section_header raw_line lines in_section recommendations :
  PyStr.contains section_header (str_lower (PyStr.strip raw_line)) = true ->
  scan_section (raw_line :: lines) in_section recommendations
  = scan_section lines true recommendations.
Proof. intros H. cbn [scan_section]. cbv zeta. by rewrite H. Qed.

(** One turn of the stage-1 loop on a marked line inside the section. *)
Lemma scan_section_item raw_line lines recommendations :
  PyStr.contains section_header (str_lower (PyStr.strip raw_line)) = false ->
  PyStr.startswith_any (PyStr.strip raw_line) list_markers = true ->
  scan_section (raw_line :: lines) true recommendations
  = scan_section lines true
      (if 20 <? length (strip_marker (PyStr.strip raw_line) list_markers)
       then recommendations
            ++ [strip_marker (PyStr.strip raw_line) list_markers]
       else recommendations).
Proof.
  intros Hheader Hmarker. cbn [scan_section]. cbv zeta.
  rewrite Hheader, Hmarker. by destruct (20 <? _).
Qed.

(** Stages 2 and 3 keep no line of at most 30 characters. *)
Lemma action_lines_short (lines : list pystr) :
  Forall (fun line => length (PyStr.strip line) <= 30) lines ->
  action_lines lines = [].
Proof.
  unfold action_lines. induction 1 as [|line lines Hline _ IH]; [done|].
  cbn [map]. rewrite filter_cons_False; [exact IH|].
  apply Nat.ltb_ge in Hline. rewrite Hline, andb_false_r. cbn. tauto.
Qed.

Lemma numbered_lines_short (lines : list pystr) :
  Forall (fun line => length (PyStr.strip line) <= 30) lines ->
  numbered_lines lines = [].
Proof.
  unfold numbered_lines. induction 1 as [|line lines Hline _ IH]; [done|].
  cbn [map]. rewrite filter_cons_False; [exact IH|].
  apply Nat.ltb_ge in Hline. rewrite Hline, andb_false_r. cbn. tauto.
Qed.

End ExtractorFacts.

Section ExtractorClaims.
Context {U : PyUnicode}.

(** C2, as the code has it.  The decision rule of the risk-level
    extractor, in which only 'amenaza' and 'riesgo' count as threat
    occurrences and the keyword count is a number of distinct words.  For
    a text that is not empty, with [n] the number of threat indicators
    ('amenaza', 'riesgo', 'desafío', 'competencia intensa', 'cambios
    regulatorios') that occur in the lowered text, [t] the occurrences of
    'amenaza' plus those of 'riesgo' and [o] the occurrences of
    'oportunidad': the level is "Alto" (High) if [n >= 3] or [t > o]; else
    "Medio" (Medium) if [n = 2] or [t = o]; else "Bajo" (Low).  For [None]
    and for the empty text it is "Bajo". *)
Theorem extract_risk_level_decision_rule (result_text : pystr) :
  result_text <> [] ->
  let text_lower := str_lower result_text in
  let n := length (filter (fun indicator =>
                             Is_true (PyStr.contains indicator text_lower))
                          [py "amenaza"; py "riesgo"; py "desafío";
                           py "competencia intensa";
                           py "cambios regulatorios"]) in
  let t := PyStr.count (py "amenaza") text_lower
           + PyStr.count (py "riesgo") text_lower in
  let o := PyStr.count (py "oportunidad") text_lower in
  (3 <= n \/ o < t ->
   extract_risk_level (Some result_text) = py "Alto")
  /\ (~ (3 <= n \/ o < t) -> n = 2 \/ t = o ->
      extract_risk_level (Some result_text) = py "Medio")
  /\ (~ (3 <= n \/ o < t) -> ~ (n = 2 \/ t = o) ->
      extract_risk_level (Some result_text) = py "Bajo")
  /\ extract_risk_level None = py "Bajo"
  /\ extract_risk_level (Some []) = py "Bajo".
Proof.
  intros Hne text_lower n t o.
  assert (Hn : threat_count text_lower = n)
    by apply threat_count_length.
  assert (Hrule : extract_risk_level (Some result_text)
                  = if (3 <=? n) || (o <? t) then py "Alto"
                    else if (n =? 2) || (t =? o) then py "Medio"
                    else py "Bajo").
  { unfold extract_risk_level. destruct result_text as [|c s]; [done|].
    cbn [PyStr.is_empty]. fold text_lower. rewrite Hn. reflexivity. }
  rewrite Hrule.
  destruct (Nat.leb_spec 3 n), (Nat.ltb_spec o t),
           (Nat.eqb_spec n 2), (Nat.eqb_spec t o);
    cbn [orb]; repeat split; try reflexivity; intros; lia.
Qed.

(** C3.  The recommendations extractor is defined on every input, [None]
    and the empty text included, and returns between 1 and 5 entries
    (each a string, by its type). *)
Theorem extract_recommendations_between_1_and_5
    (result_text : option pystr) :
  1 <= length (extract_recommendations result_text) <= 5
  /\ extract_recommendations None = default_recommendations
  /\ extract_recommendations (Some []) = default_recommendations
  /\ length default_recommendations = 3.
Proof.
  split; [apply extract_recommendations_length|].
  split; [reflexivity|]. split; reflexivity.
Qed.

(** C6, as the code has it.  The growth-potential extractor returns one
    of the four labels "Alto", "Medio", "Medio-Alto", "Moderado" (it never
    returns "Bajo"), and the risk-level extractor one of "Bajo", "Medio",
    "Alto"; both are defined on every input, [None] included. *)
Theorem extractors_label_sets (result_text : option pystr) :
  extract_growth_potential result_text
    ∈ [py "Alto"; py "Medio"; py "Medio-Alto"; py "Moderado"]
  /\ extract_risk_level result_text ∈ [py "Bajo"; py "Medio"; py "Alto"].
Proof.
  split.
  - unfold extract_growth_potential.
    repeat case_match; set_solver.
  - unfold extract_risk_level.
    repeat case_match; set_solver.
Qed.


(** C9, as the code has it.  On the text
    "Recomendaciones Estratégicas:\n1. X\n2. Y", with [X] and [Y] trimmed
    one-line items that do not themselves name the header, the extractor
    returns those of [X] and [Y] that are longer than 20 characters, in
    order, and the five canned recommendations when neither is.  For
    "Do X" and "Do Y" (4 characters each) that is the canned list.  The
    hypotheses on [str_lower] say that the header is recognised in the
    text and in its first line and not in the two item lines. *)
Theorem numbered_block_recommendations (x y : pystr) :
  PyStr.is_trimmed x = true -> PyStr.single_line x = true ->
  PyStr.is_trimmed y = true -> PyStr.single_line y = true ->
  PyStr.contains section_header
    (str_lower (Samples.numbered_block x y)) = true ->
  PyStr.contains section_header (str_lower Samples.block_header) = true ->
  PyStr.contains section_header (str_lower (py "1. " ++ x)) = false ->
  PyStr.contains section_header (str_lower (py "2. " ++ y)) = false ->
  extract_recommendations (Some (Samples.numbered_block x y))
  = or_else (filter (fun item => 20 < length item) [x; y])
      canned_recommendations.
Proof.
  intros Hx Hlx Hy Hly Htext Hheader Hitem1 Hitem2.
  set (l1 := py "1. " ++ x) in *. set (l2 := py "2. " ++ y) in *.
  assert (Hs1 : PyStr.strip l1 = l1).
  { apply PyStrFacts.strip_trimmed.
    by apply (PyStrFacts.is_trimmed_prefixed 49%N [46%N; 32%N]). }
  assert (Hs2 : PyStr.strip l2 = l2).
  { apply PyStrFacts.strip_trimmed.
    by apply (PyStrFacts.is_trimmed_prefixed 50%N [46%N; 32%N]). }
  assert (Hs0 : PyStr.strip Samples.block_header = Samples.block_header)
    by (by vm_compute).
  assert (Hm1 : strip_marker l1 list_markers = x)
    by (by apply (PyStrFacts.strip_blank_cons 32%N)).
  assert (Hm2 : strip_marker l2 list_markers = y)
    by (by apply (PyStrFacts.strip_blank_cons 32%N)).
  assert (Hlines : PyStr.split PyStr.nl (Samples.numbered_block x y)
                   = [Samples.block_header; l1; l2]).
  { unfold Samples.numbered_block. fold l1 l2.
    change ([PyStr.nl] ++ l1 ++ [PyStr.nl] ++ l2)
      with (PyStr.nl :: l1 ++ PyStr.nl :: l2).
    rewrite PyStrFacts.split_app_line by (by vm_compute).
    rewrite PyStrFacts.split_app_line
      by (by apply PyStrFacts.single_line_app).
    rewrite PyStrFacts.split_single_line
      by (by apply PyStrFacts.single_line_app).
    reflexivity. }
  assert (Hlen0 : length Samples.block_header = 29) by reflexivity.
  assert (Hlen1 : length l1 = 3 + length x)
    by (unfold l1; by rewrite length_app).
  assert (Hlen2 : length l2 = 3 + length y)
    by (unfold l2; by rewrite length_app).
  unfold extract_recommendations.
  replace (PyStr.is_empty (Samples.numbered_block x y)) with false
    by reflexivity.
  cbv zeta. rewrite Htext, Hlines.
  rewrite scan_section_header by (by rewrite Hs0).
  rewrite scan_section_item by (by rewrite Hs1).
  rewrite scan_section_item by (by rewrite Hs2).
  rewrite Hs1, Hs2, Hm1, Hm2. cbn [scan_section app].
  assert (Hshort : length x <= 20 -> length y <= 20 ->
                   action_lines [Samples.block_header; l1; l2] = []
                   /\ numbered_lines [Samples.block_header; l1; l2] = []).
  { intros Hsx Hsy.
    split; [apply action_lines_short|apply numbered_lines_short];
      repeat first [apply Forall_nil_2 | apply Forall_cons_2];
      rewrite ?Hs0, ?Hs1, ?Hs2; lia. }
  rewrite !filter_cons, filter_nil.
  destruct (Nat.ltb_spec 20 (length x)) as [Hx20|Hx20],
           (Nat.ltb_spec 20 (length y)) as [Hy20|Hy20];
    repeat case_decide; try lia; try reflexivity.
  destruct (Hshort Hx20 Hy20) as [-> ->]. reflexivity.
Qed.

End ExtractorClaims.

(** ** Properties of the normaliser and of the chain *)

Section ConnectorFacts.
Context {U : PyUnicode}.

Lemma Return_inj {A} (a b : A) : Return a = Return b -> a = b.
Proof. by intros [= ->]. Qed.

Lemma truncate_500_length (x : pystr) : length (truncate_500 x) <= 503.
Proof.
  unfold truncate_500. destruct (Nat.ltb_spec 500 (length x)); [|lia].
  rewrite length_app, length_take.
  replace (length (py "...")) with 3 by reflexivity. lia.
Qed.

Lemma truncate_500_short (x : pystr) :
  length x <= 500 -> truncate_500 x = x.
Proof.
  intros H. unfold truncate_500.
  destruct (Nat.ltb_spec 500 (length x)); [lia|done].
Qed.

Lemma truncate_500_long (x : pystr) :
  500 < length x -> truncate_500 x = take 500 x ++ py "...".
Proof.
  intros H. unfold truncate_500.
  destruct (Nat.ltb_spec 500 (length x)); [done|lia].
Qed.

(** The engine configuration always carries a mapped analysis type. *)
Lemma config_analysis_type (company_data : request) :
  build_analysis_config company_data !! py "analysis_type"
  = Some (PStr (map_analysis_type
                  (get (entries company_data) (py "analysis_type")
                     (PStr (py "market"))))).
Proof.
  unfold build_analysis_config. cbv zeta.
  rewrite !list_to_map_cons.
  do 4 (rewrite lookup_insert_ne by (by vm_compute)).
  by rewrite lookup_insert_eq.
Qed.


(** The cost computation raises exactly on an analysis type that is
    present and not a string. *)
Lemma calculate_real_cost_returns (config : gmap pystr pyval) :
  config !! py "analysis_type" <> Some PNone ->
  exists cost, calculate_real_cost config = Return cost.
Proof.
  intros H. unfold calculate_real_cost, get.
  destruct (config !! py "analysis_type") as [[|s]|]; [done| |];
    cbn [default]; eauto.
Qed.

Lemma calculate_real_cost_raises (config : gmap pystr pyval) e :
  calculate_real_cost config = Raise e ->
  config !! py "analysis_type" = Some PNone.
Proof.
  unfold calculate_real_cost, get.
  by destruct (config !! py "analysis_type") as [[|s]|].
Qed.

(** What a returning simulation returns. *)
Lemma create_intelligent_simulation_inv company_data r :
  create_intelligent_simulation company_data = Return r ->
  success r = true /\ source r = Some source_simulation
  /\ exists a,
       result_analysis r = Some a
       /\ length (recommendations a) = 8
       /\ executive_summary a
          = let d := entries company_data in
            simulation_summary
              (py_str (get d (py "name") (PStr (py "Empresa"))))
              (py_str (get d (py "industry") (PStr (py "General"))))
              (py_str (get d (py "location") (PStr (py "Ubicación"))))
              (py_str (get d (py "analysis_type") (PStr (py "Básico")))).
Proof.
  unfold create_intelligent_simulation. cbv zeta.
  destruct (calculate_real_cost _) as [cost|e]; [|done].
  unfold mbind, outcome_bind, mret, outcome_ret. cbv beta iota.
  intros <-%Return_inj. cbn [success source result_analysis].
  split; [reflexivity|]. split; [reflexivity|].
  eexists. split; [reflexivity|]. split; reflexivity.
Qed.

Lemma create_intelligent_simulation_returns company_data :
  entries company_data !! py "analysis_type" <> Some PNone ->
  exists r, create_intelligent_simulation company_data = Return r.
Proof.
  intros H. unfold create_intelligent_simulation. cbv zeta.
  destruct (calculate_real_cost_returns _ H) as [cost ->]. eauto.
Qed.

Lemma create_intelligent_simulation_raises company_data e :
  create_intelligent_simulation company_data = Raise e ->
  entries company_data !! py "analysis_type" = Some PNone.
Proof.
  unfold create_intelligent_simulation. cbv zeta.
  destruct (calculate_real_cost _) as [cost|e'] eqn:E; [done|].
  intros _. by eapply calculate_real_cost_raises.
Qed.

(** What the inner [try] returns when nothing in it raises. *)
Lemma run_engine_inv engine company_data r :
  run_engine engine company_data (build_analysis_config company_data)
    = Return r ->
  success r = true
  /\ ((source r = Some source_real
       /\ exists resultado,
            result_analysis r = Some (process_crewai_result resultado))
      \/ r = create_fallback_result company_data
               (py "Resultado vacío de CrewAI")).
Proof.
  unfold run_engine, mbind, outcome_bind, mret, outcome_ret.
  destruct (template_name engine _) as [name|e]; [|done].
  destruct (execute_analysis engine _) as [resultado|e]; [|done].
  destruct (is_truthy resultado).
  - destruct (calculate_real_cost _) as [cost|e]; [|done].
    intros <-%Return_inj. cbn [success source result_analysis].
    split; [reflexivity|]. left. split; [reflexivity|].
    exists resultado. reflexivity.
  - intros <-%Return_inj. split; [reflexivity|]. right. reflexivity.
Qed.

(** The three stages a returning body can end in. *)
Lemma analyze_company_body_inv self company_data r :
  analyze_company_body self company_data = Return r ->
  success r = true
  /\ exists a,
       result_analysis r = Some a
       /\ ((source r = Some source_real
            /\ exists resultado, a = process_crewai_result resultado)
           \/ (source r = Some source_fallback
               /\ length (recommendations a) = 3)
           \/ (source r = Some source_simulation
               /\ length (recommendations a) = 8)).
Proof.
  assert (Hsim : create_intelligent_simulation company_data = Return r ->
                 success r = true
                 /\ exists a,
                      result_analysis r = Some a
                      /\ ((source r = Some source_real
                           /\ exists resultado,
                                a = process_crewai_result resultado)
                          \/ (source r = Some source_fallback
                              /\ length (recommendations a) = 3)
                          \/ (source r = Some source_simulation
                              /\ length (recommendations a) = 8))).
  { intros (Hs & Hsrc & a & Ha & Hlen & _)%create_intelligent_simulation_inv.
    split; [exact Hs|]. exists a. split; [exact Ha|].
    right. right. split; [exact Hsrc|exact Hlen]. }
  unfold analyze_company_body. cbv zeta.
  destruct (crewai_real self); [|done].
  destruct (the_analyzer self) as [engine|]; [|done].
  destruct (run_engine _ _ _) as [r'|e] eqn:E; [|done].
  intros <-%Return_inj.
  apply run_engine_inv in E as [Hs [[Hsrc [resultado Ha]] | ->]].
  - split; [exact Hs|]. eexists. split; [exact Ha|].
    left. split; [exact Hsrc|]. exists resultado. reflexivity.
  - split; [reflexivity|]. eexists. split; [reflexivity|].
    right. left. split; reflexivity.
Qed.

Lemma analyze_company_body_raises self company_data e :
  analyze_company_body self company_data = Raise e ->
  entries company_data !! py "analysis_type" = Some PNone.
Proof.
  unfold analyze_company_body. cbv zeta.
  destruct (crewai_real self), (the_analyzer self) as [engine|];
    try apply create_intelligent_simulation_raises.
  destruct (run_engine _ _ _); [done|].
  apply create_intelligent_simulation_raises.
Qed.

(** With a failing engine the body is the simulation. *)
Lemma analyze_company_body_engine_failure self company_data engine e :
  crewai_real self = true ->
  the_analyzer self = Some engine ->
  run_engine engine company_data (build_analysis_config company_data)
    = Raise e ->
  analyze_company_body self company_data
  = create_intelligent_simulation company_data.
Proof.
  intros Hreal Hengine Hraise. unfold analyze_company_body. cbv zeta.
  by rewrite Hreal, Hengine, Hraise.
Qed.

(** Engine failure on a request with a sound analysis type: the
    exception stays inside, the simulation record comes back. *)
Lemma engine_failure_gives_simulation self company_data engine e :
  components_loaded self = true ->
  crewai_real self = true ->
  the_analyzer self = Some engine ->
  run_engine engine company_data (build_analysis_config company_data)
    = Raise e ->
  entries company_data !! py "analysis_type" <> Some PNone ->
  create_intelligent_simulation company_data
    = Return (analyze_company self company_data)
  /\ success (analyze_company self company_data) = true
  /\ source (analyze_company self company_data) = Some source_simulation.
Proof.
  intros Hready Hreal Hengine Hraise Htype.
  unfold analyze_company, is_system_ready. rewrite Hready. cbn [negb].
  rewrite (analyze_company_body_engine_failure _ _ _ _ Hreal Hengine Hraise).
  destruct (create_intelligent_simulation_returns _ Htype) as [r Hr].
  rewrite Hr.
  apply create_intelligent_simulation_inv in Hr as (Hs & Hsrc & _).
  done.
Qed.

End ConnectorFacts.

Section ConnectorClaims.
Context {U : PyUnicode}.

(** C4, as the code has it.  Every result that carries an analysis has a
    recommendations list that is not empty; its length depends on the
    stage: 1 to 5 entries on the real-engine path, exactly 3 in the
    fallback on an empty result, exactly 8 in the synthetic simulation
    (which is not capped at 5).  A result without an analysis is an
    error record, [success = false]. *)
Theorem recommendations_per_stage (self : connector)
    (company_data : request) :
  let r := analyze_company self company_data in
  match result_analysis r with
  | None => success r = false
  | Some a =>
    let n := length (recommendations a) in
    (source r = Some source_real /\ 1 <= n <= 5)
    \/ (source r = Some source_fallback /\ n = 3)
    \/ (source r = Some source_simulation /\ n = 8)
  end.
Proof.
  cbv zeta. unfold analyze_company.
  destruct (negb (is_system_ready self)); [done|].
  destruct (analyze_company_body self company_data) as [r|e] eqn:E;
    [|done].
  apply analyze_company_body_inv in E as (_ & a & -> & Hstage).
  destruct Hstage as [[Hsrc [resultado ->]] | [Hfallback | Hsim]].
  - left. split; [exact Hsrc|]. apply extract_recommendations_length.
  - right. left. exact Hfallback.
  - right. right. exact Hsim.
Qed.

(** C5, as the code has it.  The executive summary of a normalised
    engine result has at most 503 characters; it is the selected text
    itself when that has at most 500 characters, and its first 500
    characters followed by "..." otherwise.  In particular an empty text
    gives an empty summary: no canned paragraph is put in its place. *)
Theorem executive_summary_truncation (resultado : crew_output) :
  let resultado_str := selected_text resultado in
  let summary := executive_summary (process_crewai_result resultado) in
  length summary <= 503
  /\ (length resultado_str <= 500 -> summary = resultado_str)
  /\ (500 < length resultado_str ->
      summary = take 500 resultado_str ++ py "...")
  /\ (resultado_str = [] -> summary = []).
Proof.
  cbv zeta. cbn [process_crewai_result executive_summary].
  split; [apply truncate_500_length|].
  split; [apply truncate_500_short|].
  split; [apply truncate_500_long|].
  intros ->. reflexivity.
Qed.


(** C10, as the code has it.  The overall score of a normalised engine
    result is the constant 85 whatever the length of the output; the
    length threshold (500 characters) selects the confidence label only:
    "Alta" above it, "Media" otherwise. *)
Theorem overall_score_is_85 (resultado : crew_output) :
  let m := analysis_metrics (process_crewai_result resultado) in
  let n := length (selected_text resultado) in
  overall_score m = 85%Z
  /\ (500 < n -> confidence m = Some (py "Alta"))
  /\ (n <= 500 -> confidence m = Some (py "Media")).
Proof.
  cbv zeta.
  cbn [process_crewai_result analysis_metrics overall_score confidence].
  split; [reflexivity|].
  destruct (Nat.ltb_spec 500 (length (selected_text resultado)));
    split; intros; (reflexivity || lia).
Qed.

End ConnectorClaims.

(** ** The claims on concrete inputs *)

(** C1.  The failing input [{"name": "Acme", "analysis_type": None}] with
    an engine that raises: [_map_analysis_type] guards against [None], the
    engine is called and raises, the simulation is tried, and its cost
    computation calls [None.lower()].  The outer handler turns that into an
    error record: [success] is false and there is no source tag, where the
    claim promises the simulation record. *)
Theorem engine_failure_with_none_analysis_type :
  let r := analyze_company (U:=latin1) Samples.failing_connector
             Samples.none_type_request in
  run_engine (U:=latin1) Samples.failing_engine Samples.none_type_request
    (build_analysis_config (U:=latin1) Samples.none_type_request)
  = Raise (Exn (py "RuntimeError") (py "engine down"))
  /\ success r = false
  /\ source r = None
  /\ error r
     = Some (py "Error en análisis: 'NoneType' object has no attribute 'lower'").
Proof.
  cbv zeta.
  split; [vm_compute; reflexivity|].
  split; [vm_compute; reflexivity|].
  split; vm_compute; reflexivity.
Qed.

(** C2 fails on a text that repeats a threat word other than 'amenaza'
    and 'riesgo': three occurrences of 'desafío' and no 'oportunidad' are
    more threat than opportunity occurrences, yet the level is "Medio".
    The code sees one distinct indicator and no threat occurrence at
    all. *)
Lemma repeated_challenge_is_not_high :
  let text_lower :=
    str_lower (PyUnicode:=latin1) (py "desafío desafío desafío") in
  vocabulary_occurrences text_lower = 3
  /\ PyStr.count (py "oportunidad") text_lower = 0
  /\ threat_count text_lower = 1
  /\ threats text_lower = 0
  /\ extract_risk_level (U:=latin1) (Some (py "desafío desafío desafío"))
     = py "Medio"
  /\ py "Medio" <> py "Alto".
Proof.
  cbv zeta.
  split; [vm_compute; reflexivity|].
  split; [vm_compute; reflexivity|].
  split; [vm_compute; reflexivity|].
  split; [vm_compute; reflexivity|].
  split; [vm_compute; reflexivity|].
  vm_compute. discriminate.
Qed.

Lemma extract_risk_level_decision_rule_witness :
  extract_risk_level (U:=latin1) (Some (py "Riesgo alto, sin oportunidad"))
  = py "Medio"
  /\ extract_risk_level (U:=latin1) (Some (py "Mucho riesgo")) = py "Alto".
Proof.
  split.
  - apply (extract_risk_level_decision_rule (U:=latin1)
             (py "Riesgo alto, sin oportunidad")).
    + vm_compute. discriminate.
    + vm_compute. lia.
    + vm_compute. lia.
  - apply (extract_risk_level_decision_rule (U:=latin1) (py "Mucho riesgo")).
    + vm_compute. discriminate.
    + vm_compute. lia.
Defined.

(** C4 fails on the simulation stage: eight recommendations, not at most
    five. *)
Lemma simulation_has_eight_recommendations :
  exists a,
    result_analysis (analyze_company (U:=latin1) Samples.simulation_connector
                       Samples.empty_request) = Some a
    /\ source (analyze_company (U:=latin1) Samples.simulation_connector
                 Samples.empty_request) = Some source_simulation
    /\ length (recommendations a) = 8
    /\ ~ length (recommendations a) <= 5.
Proof.
  eexists. split; [vm_compute; reflexivity|].
  split; [vm_compute; reflexivity|].
  split; [reflexivity|]. cbn [recommendations length]. lia.
Qed.

(** C5 fails on the empty text: the summary is the empty string, there is
    no canned paragraph. *)
Lemma empty_text_gives_empty_summary :
  selected_text Samples.empty_raw_output = []
  /\ ~ (exists canned : pystr,
          canned <> []
          /\ executive_summary
               (process_crewai_result (U:=latin1) Samples.empty_raw_output)
             = canned).
Proof.
  split; [reflexivity|]. intros (canned & Hne & Heq).
  apply Hne. rewrite <- Heq. reflexivity.
Qed.

Lemma executive_summary_truncation_witness :
  executive_summary
    (process_crewai_result (U:=latin1) Samples.empty_raw_output) = [].
Proof.
  apply (executive_summary_truncation (U:=latin1) Samples.empty_raw_output).
  reflexivity.
Defined.

(** C6 fails on a text that names a risk: the growth label is "Moderado",
    none of Low, Medium, Medium-High, High. *)
Lemma growth_potential_moderado :
  extract_growth_potential (U:=latin1) (Some (py "Hay un riesgo"))
  = py "Moderado"
  /\ py "Moderado" ∉ [py "Bajo"; py "Medio"; py "Medio-Alto"; py "Alto"].
Proof.
  split; [vm_compute; reflexivity|].
  vm_compute. intros H. repeat (inversion H as [|? ? ? H']; clear H; rename H' into H).
Qed.





(** C10 fails for every threshold: the empty output is below it and
    scores 85 all the same. *)
Lemma overall_score_has_no_threshold :
  ~ (exists (threshold : nat) (lower_score : Z),
       (lower_score < 85)%Z
       /\ forall resultado : crew_output,
            (threshold < length (selected_text resultado) ->
             overall_score
               (analysis_metrics (process_crewai_result (U:=latin1) resultado))
             = 85%Z)
            /\ (length (selected_text resultado) <= threshold ->
                overall_score
                  (analysis_metrics
                     (process_crewai_result (U:=latin1) resultado))
                = lower_score)).
Proof.
  intros (threshold & lower_score & Hlt & Hrule).
  destruct (Hrule Samples.empty_raw_output) as [_ Hlow].
  cbn in Hlow. specialize (Hlow ltac:(lia)). lia.
Qed.

Lemma overall_score_is_85_witness :
  confidence
    (analysis_metrics
       (process_crewai_result (U:=latin1) Samples.empty_raw_output))
  = Some (py "Media").
Proof.
  apply (overall_score_is_85 (U:=latin1) Samples.empty_raw_output).
  cbn. lia.
Defined.

(** C9 fails on the block itself: the two items are too short to be kept,
    and the answer is the canned list of five. *)
Lemma literal_block_not_do_x_do_y :
  extract_recommendations (U:=latin1) (Some Samples.literal_block)
  <> [py "Do X"; py "Do Y"]
  /\ length (extract_recommendations (U:=latin1) (Some Samples.literal_block))
     = 5.
Proof. split; [vm_compute; discriminate|vm_compute; reflexivity]. Qed.

Lemma numbered_block_recommendations_witness :
  extract_recommendations (U:=latin1) (Some Samples.literal_block)
  = canned_recommendations
  /\ extract_recommendations (U:=latin1) (Some Samples.long_block)
     = [py "Abrir una tienda en línea propia";
        py "Renegociar los contratos de suministro"].
Proof.
  split.
  - etransitivity.
    + apply (numbered_block_recommendations (U:=latin1)
               (py "Do X") (py "Do Y")); vm_compute; reflexivity.
    + vm_compute. reflexivity.
  - etransitivity.
    + apply (numbered_block_recommendations (U:=latin1)
               (py "Abrir una tienda en línea propia")
               (py "Renegociar los contratos de suministro"));
        vm_compute; reflexivity.
    + vm_compute. reflexivity.
Defined.


(** ** Further properties of the string operations *)

Module PyStrMoreFacts.
Import PyStr.

(** Deciding a closed membership or equation by evaluation. *)
Ltac by_evaluation :=
  match goal with
  | |- ?P => apply (@bool_decide_unpack P _); vm_compute; exact I
  end.

Lemma count_present sub s :
  0 < count sub s -> contains sub s = true.
Proof.
  intros Hpos. destruct (contains sub s) eqn:E; [done|].
  destruct sub as [|c sub]; [by destruct s|].
  rewrite PyStrFacts.count_absent in Hpos; [lia|done|done].
Qed.

Lemma single_line_Forall s :
  single_line s = true <-> Forall (fun c => c <> nl) s.
Proof.
  unfold single_line. rewrite forallb_forall, Forall_forall.
  split; intros H c Hc.
  - apply list_elem_of_In, H, negb_true_iff, N.eqb_neq in Hc. exact Hc.
  - apply negb_true_iff, N.eqb_neq, H, list_elem_of_In, Hc.
Qed.

Lemma lstrip_suffix s : exists w, s = w ++ lstrip s.
Proof.
  induction s as [|c s [w IH]]; [by exists []|]. cbn [lstrip].
  destruct (isspace c).
  - exists (c :: w). cbn [app]. by rewrite <- IH.
  - by exists [].
Qed.

Lemma rstrip_prefix s : exists w, s = rstrip s ++ w.
Proof.
  unfold rstrip. destruct (lstrip_suffix (rev s)) as [w Hw].
  exists (rev w). rewrite <- rev_app_distr, <- Hw. by rewrite rev_involutive.
Qed.

Lemma single_line_lstrip s :
  single_line s = true -> single_line (lstrip s) = true.
Proof.
  rewrite !single_line_Forall. destruct (lstrip_suffix s) as [w Hw].
  intros H. rewrite Hw in H. by apply Forall_app in H as [_ H].
Qed.

Lemma single_line_rstrip s :
  single_line s = true -> single_line (rstrip s) = true.
Proof.
  rewrite !single_line_Forall. destruct (rstrip_prefix s) as [w Hw].
  intros H. rewrite Hw in H. by apply Forall_app in H as [H _].
Qed.

Lemma single_line_strip s :
  single_line s = true -> single_line (strip s) = true.
Proof. intros H. by apply single_line_rstrip, single_line_lstrip. Qed.

Lemma single_line_drop n s :
  single_line s = true -> single_line (drop n s) = true.
Proof. rewrite !single_line_Forall. apply Forall_drop. Qed.

(** The lines [split] returns hold no line break. *)
Lemma split_single_lines s :
  Forall (fun line => single_line line = true) (split nl s).
Proof.
  induction s as [|c s IH]; cbn [split]; [by repeat constructor|].
  destruct (N.eqb_spec c nl) as [->|Hc]; [by constructor|].
  destruct (split nl s) as [|l ls]; [repeat constructor; cbn|].
  - apply N.eqb_neq in Hc. by rewrite Hc.
  - apply Forall_cons in IH as [Hl Hls]. constructor; [|done].
    cbn. apply N.eqb_neq in Hc. by rewrite Hc.
Qed.

(** What [lstrip] leaves starts with a character that is kept. *)
Lemma lstrip_head s :
  match lstrip s with [] => True | a :: _ => isspace a = false end.
Proof.
  induction s as [|c s IH]; [done|]. cbn [lstrip].
  by destruct (isspace c) eqn:E.
Qed.

(** [strip] returns the empty text or a trimmed one. *)
Lemma strip_nil_or_trimmed s : strip s = [] \/ is_trimmed (strip s) = true.
Proof.
  unfold strip. set (t := lstrip s).
  destruct (rstrip t) as [|a r] eqn:E; [by left|]. right.
  unfold is_trimmed. apply andb_true_iff. split.
  - destruct (rstrip_prefix t) as [w Hw]. rewrite E in Hw.
    pose proof (lstrip_head s) as Hhead. fold t in Hhead. rewrite Hw in Hhead.
    cbn in Hhead. by rewrite Hhead.
  - rewrite <- E. unfold rstrip. rewrite rev_involutive.
    pose proof (lstrip_head (rev t)) as Hhead.
    destruct (lstrip (rev t)) as [|b q] eqn:E'.
    + unfold rstrip in E. by rewrite E' in E.
    + by rewrite Hhead.
Qed.

(** A text that ends with a kept character does not strip to nothing. *)
Lemma lstrip_snoc s b :
  isspace b = false -> exists t, lstrip (s ++ [b]) = t ++ [b].
Proof.
  intros Hb. induction s as [|c s [t IH]]; cbn [app lstrip].
  - rewrite Hb. by exists [].
  - destruct (isspace c); [by exists t|]. by exists (c :: s).
Qed.

Lemma strip_snoc_nonempty s b : isspace b = false -> strip (s ++ [b]) <> [].
Proof.
  intros Hb. unfold strip, rstrip.
  destruct (lstrip_snoc s b Hb) as [t ->].
  rewrite rev_app_distr. cbn [rev app lstrip]. rewrite Hb.
  cbn [rev]. rewrite rev_involutive. by destruct t.
Qed.

(** A trimmed text ends with a kept character. *)
Lemma is_trimmed_snoc s :
  is_trimmed s = true -> exists s' b, s = s' ++ [b] /\ isspace b = false.
Proof.
  unfold is_trimmed. intros [_ Hlast]%andb_true_iff.
  destruct (rev s) as [|b r] eqn:E; [done|].
  exists (rev r), b. split; [|by apply negb_true_iff].
  by rewrite <- (rev_involutive s), E.
Qed.

Lemma replace_length old new s : length (replace old new s) = length s.
Proof. apply length_map. Qed.

(** After [replace], the replaced character is gone. *)
Lemma replace_absent old new s :
  new <> old -> Forall (fun c => c <> old) (replace old new s).
Proof.
  intros Hne. unfold replace.
  induction s as [|c s IH]; cbn [map]; constructor; [|exact IH].
  by destruct (N.eqb_spec c old).
Qed.

Lemma replace_is_trimmed old new s :
  isspace old = true -> is_trimmed s = true ->
  is_trimmed (replace old new s) = true.
Proof.
  intros Hold. unfold is_trimmed, replace.
  rewrite <- map_rev.
  intros [Hhead Hlast]%andb_true_iff. apply andb_true_iff.
  assert (Hkeep : forall c, negb (isspace c) = true ->
                            (if (c =? old)%N then new else c) = c).
  { intros c Hc. destruct (N.eqb_spec c old) as [->|]; [|done].
    by rewrite Hold in Hc. }
  split.
  - destruct s as [|a s]; [done|]. cbn [map]. by rewrite (Hkeep a Hhead).
  - destruct (rev s) as [|b r]; [done|]. cbn [map]. by rewrite (Hkeep b Hlast).
Qed.

Lemma startswith_app p s : startswith (p ++ s) p = true.
Proof.
  induction p as [|a p IH]; [by destruct s|].
  cbn [app startswith]. by rewrite N.eqb_refl, IH.
Qed.

End PyStrMoreFacts.

(** ** Further properties of the extractors and the report texts *)

Section ExtractorMoreFacts.
Context {U : PyUnicode}.

Lemma printable_default : Forall printable_entry default_recommendations.
Proof.
  repeat (constructor; [split; [by vm_compute|by vm_compute]|]).
  constructor.
Qed.

Lemma printable_canned : Forall printable_entry canned_recommendations.
Proof.
  repeat (constructor; [split; [by vm_compute|by vm_compute]|]).
  constructor.
Qed.

Lemma single_line_strip_marker line prefixes :
  PyStr.single_line line = true ->
  PyStr.single_line (strip_marker line prefixes) = true.
Proof.
  intros Hline. induction prefixes as [|prefix prefixes IH]; [done|].
  cbn [strip_marker]. destruct (PyStr.startswith line prefix); [|done].
  by apply PyStrMoreFacts.single_line_strip, PyStrMoreFacts.single_line_drop.
Qed.

Lemma length_nonempty (r : pystr) n : n < length r -> r <> [].
Proof. destruct r; cbn; [lia|done]. Qed.

(** Stage 1 only collects printable entries. *)
Lemma scan_section_printable lines in_section recommendations :
  Forall (fun line => PyStr.single_line line = true) lines ->
  Forall printable_entry recommendations ->
  Forall printable_entry (scan_section lines in_section recommendations).
Proof.
  intros Hlines. revert in_section recommendations.
  induction Hlines as [|raw_line lines Hraw _ IH];
    intros in_section recommendations Hrecs; [done|].
  cbn [scan_section]. cbv zeta.
  destruct (PyStr.contains section_header _); [by apply IH|].
  destruct in_section; [|by apply IH].
  destruct (PyStr.startswith_any _ _).
  - destruct (Nat.ltb_spec 20 (length (strip_marker (PyStr.strip raw_line)
                                         list_markers))) as [Hlong|_];
      [|by apply IH].
    apply IH, Forall_app. split; [done|]. constructor; [|done]. split.
    + by eapply length_nonempty.
    + by apply single_line_strip_marker, PyStrMoreFacts.single_line_strip.
  - destruct (next_section_line _); [done|by apply IH].
Qed.

(** Stage 2 only keeps printable entries. *)
Lemma action_lines_printable lines :
  Forall (fun line => PyStr.single_line line = true) lines ->
  Forall printable_entry (action_lines lines).
Proof.
  unfold action_lines. induction 1 as [|raw_line lines Hraw _ IH]; [done|].
  cbn [map]. rewrite filter_cons. case_decide as Hkeep; [|done].
  constructor; [|done].
  apply Is_true_true, andb_true_iff in Hkeep as [Hkeep _].
  apply andb_true_iff in Hkeep as [_ Hlong]. apply Nat.ltb_lt in Hlong.
  split; [by eapply length_nonempty|].
  by apply PyStrMoreFacts.single_line_strip.
Qed.

(** Stage 3 only keeps printable entries: a stripped line of more than 30
    characters still ends with a kept character after its first two are
    cut off. *)
Lemma numbered_lines_printable lines :
  Forall (fun line => PyStr.single_line line = true) lines ->
  Forall printable_entry (numbered_lines lines).
Proof.
  unfold numbered_lines. induction 1 as [|raw_line lines Hraw _ IH]; [done|].
  cbn [map]. rewrite filter_cons. case_decide as Hkeep; [|done].
  cbn [map]. constructor; [|done].
  apply Is_true_true, andb_true_iff in Hkeep as [_ Hlong].
  apply Nat.ltb_lt in Hlong.
  split.
  - destruct (PyStrMoreFacts.strip_nil_or_trimmed raw_line) as [E|Htrim].
    { rewrite E in Hlong. cbn in Hlong. lia. }
    apply PyStrMoreFacts.is_trimmed_snoc in Htrim as (s' & b & E & Hb).
    rewrite E in *. rewrite length_app in Hlong. cbn in Hlong.
    rewrite drop_app_le by lia.
    by apply PyStrMoreFacts.strip_snoc_nonempty.
  - apply PyStrMoreFacts.single_line_strip, PyStrMoreFacts.single_line_drop.
    by apply PyStrMoreFacts.single_line_strip.
Qed.

Lemma or_else_Forall (P : pystr -> Prop) recommendations next :
  Forall P recommendations -> Forall P next ->
  Forall P (or_else recommendations next).
Proof. intros Hr Hn. by destruct recommendations. Qed.

End ExtractorMoreFacts.

Section ExtractorExtras.
Context {U : PyUnicode}.

(** X1.  Whatever the input ([None] included), every recommendation the
    extractor returns is a text that is not empty and holds no line
    break. *)
Theorem recommendations_are_printable (result_text : option pystr) :
  Forall (fun r => r <> [] /\ PyStr.single_line r = true)
         (extract_recommendations result_text).
Proof.
  change (Forall printable_entry (extract_recommendations result_text)).
  destruct result_text as [result_text|]; [|apply printable_default].
  unfold extract_recommendations.
  destruct (PyStr.is_empty result_text); [apply printable_default|].
  cbv zeta. apply Forall_take.
  pose proof (PyStrMoreFacts.split_single_lines result_text) as Hlines.
  repeat apply or_else_Forall.
  - destruct (PyStr.contains section_header _); [|done].
    by apply scan_section_printable.
  - by apply action_lines_printable.
  - by apply numbered_lines_printable.
  - apply printable_canned.
Qed.

(** X2.  A text that is not empty is rated "Bajo" only if it names
    'oportunidad', more often than 'amenaza' and 'riesgo' together, and
    names fewer than three threat indicators. *)
Theorem low_risk_needs_opportunity (result_text : pystr) :
  result_text <> [] ->
  extract_risk_level (Some result_text) = py "Bajo" ->
  let text_lower := str_lower result_text in
  PyStr.contains (py "oportunidad") text_lower = true
  /\ threats text_lower < opportunities text_lower
  /\ threat_count text_lower < 3.
Proof.
  intros Hne. unfold extract_risk_level.
  destruct result_text as [|c s]; [done|]. cbn [PyStr.is_empty]. cbv zeta.
  set (text_lower := str_lower (c :: s)).
  destruct (Nat.leb_spec 3 (threat_count text_lower)) as [|Hcount],
           (Nat.ltb_spec (opportunities text_lower) (threats text_lower))
             as [|Hle];
    cbn [orb]; try (intros Hlabel; vm_compute in Hlabel; discriminate).
  destruct (threat_count text_lower =? 2); cbn [orb];
    try (intros Hlabel; vm_compute in Hlabel; discriminate).
  destruct (Nat.eqb_spec (threats text_lower) (opportunities text_lower))
    as [|Hneq]; [intros Hlabel; vm_compute in Hlabel; discriminate|].
  intros _. split; [|split; lia].
  apply PyStrMoreFacts.count_present. unfold opportunities in *. lia.
Qed.

End ExtractorExtras.

(** X3.  The paragraphs the report makes of an executive summary are
    never empty, hold no line break and neither begin nor end with a
    blank, whatever the summary. *)
Theorem summary_paragraphs_are_clean (executive_summary : pystr) :
  Forall (fun clean_para =>
            clean_para <> []
            /\ PyStr.single_line clean_para = true
            /\ PyStr.is_trimmed clean_para = true)
         (summary_paragraphs executive_summary).
Proof.
  unfold summary_paragraphs. cbv zeta.
  induction (PyStr.split_str _ _) as [|para paragraphs IH]; [constructor|].
  rewrite filter_cons. case_decide as Hpara; [|exact IH].
  cbn [map]. rewrite filter_cons. case_decide as Hclean; [|exact IH].
  constructor; [|exact IH].
  split; [by destruct (PyStr.replace _ _ _)|]. split.
  - apply PyStrMoreFacts.single_line_Forall.
    by apply PyStrMoreFacts.replace_absent.
  - apply PyStrMoreFacts.replace_is_trimmed; [done|].
    destruct (PyStrMoreFacts.strip_nil_or_trimmed para) as [E|]; [|done].
    by rewrite E in Hpara.
Qed.

Section ReportNameExtras.
Context {U : PyUnicode}.

(** X4.  The file name [generate_pdf] hands to the report generator holds
    no blank, whatever the company name: it is "reporte_", the lowered
    name with every blank replaced by an underscore, and ".pdf".  A
    missing, [None] or empty company name counts as "Empresa". *)
Theorem pdf_archivo_salida_has_no_blank (company_name : option pyval) :
  Forall (fun c => c <> PyStr.space) (pdf_archivo_salida company_name)
  /\ PyStr.startswith (pdf_archivo_salida company_name) (py "reporte_") = true
  /\ length (pdf_archivo_salida company_name)
     = 12 + length (str_lower (pdf_company_name company_name))
  /\ pdf_archivo_salida None = pdf_archivo_salida (Some (PStr (py "Empresa")))
  /\ pdf_archivo_salida (Some PNone) = pdf_archivo_salida None
  /\ pdf_archivo_salida (Some (PStr [])) = pdf_archivo_salida None.
Proof.
  split; [|split; [|split; [|by repeat split]]].
  - unfold pdf_archivo_salida. rewrite !Forall_app. split; [|split].
    + repeat (constructor; [by vm_compute|]). constructor.
    + by apply PyStrMoreFacts.replace_absent.
    + repeat (constructor; [by vm_compute|]). constructor.
  - apply PyStrMoreFacts.startswith_app.
  - unfold pdf_archivo_salida.
    rewrite !length_app, PyStrMoreFacts.replace_length.
    change (length (py "reporte_")) with 8.
    change (length (py ".pdf")) with 4. lia.
Qed.

End ReportNameExtras.

(** ** Further properties of the analysis types and the costs *)

Section TypeFacts.
Context {U : PyUnicode}.

Lemma lookup_mapping_value frontend_type mapping value :
  lookup_mapping frontend_type mapping = Some value ->
  In value (map snd mapping).
Proof.
  induction mapping as [|[k v] mapping IH]; [done|]. cbn [lookup_mapping].
  destruct (_ || _).
  - intros [= ->]. by left.
  - intros H. right. by apply IH.
Qed.

Lemma map_analysis_type_in_types (frontend_type : pyval) :
  map_analysis_type frontend_type ∈ analysis_types.
Proof.
  unfold map_analysis_type.
  destruct (negb (truthy frontend_type)); [PyStrMoreFacts.by_evaluation|].
  cbv zeta.
  destruct (lookup_mapping _ _) as [value|] eqn:E.
  - apply lookup_mapping_value in E. cbn [map snd analysis_type_mapping In] in E.
    destruct E as [<-|[<-|[<-|[<-|[<-|[<-|[<-|[]]]]]]]];
      PyStrMoreFacts.by_evaluation.
  - repeat match goal with
           | |- context [if ?b then _ else _] => destruct b
           end; PyStrMoreFacts.by_evaluation.
Qed.

(** Case analysis over the seven analysis types. *)
Lemma analysis_types_cases (P : pystr -> Prop) (t : pystr) :
  t ∈ analysis_types ->
  P (py "market") -> P (py "financial") -> P (py "expansion") ->
  P (py "digital") -> P (py "operations") -> P (py "strategic") ->
  P (py "complete") -> P t.
Proof.
  intros Ht%list_elem_of_In. cbn [analysis_types In] in Ht.
  destruct Ht as [<-|[<-|[<-|[<-|[<-|[<-|[<-|[]]]]]]]]; auto.
Qed.

(** An analysis type that [str.lower] leaves alone is mapped to itself. *)
Lemma map_analysis_type_fixes (t : pystr) :
  t ∈ analysis_types -> str_lower t = t -> map_analysis_type (PStr t) = t.
Proof.
  intros Ht. pattern t. revert t Ht. 
  intros t Ht.
  apply (analysis_types_cases _ t Ht);
    intros Hlower; unfold map_analysis_type; cbn [py_str truthy]; cbv zeta;
    rewrite !Hlower; vm_compute; reflexivity.
Qed.

Lemma config_no_additional_info (company_data : request) :
  build_analysis_config company_data !! py "additional_info" = None.
Proof.
  unfold build_analysis_config. cbv zeta.
  rewrite !list_to_map_cons.
  repeat (rewrite lookup_insert_ne by (by vm_compute)).
  apply lookup_empty.
Qed.

(** What [_calculate_real_cost] returns or raises. *)
Lemma calculate_real_cost_spec (config : gmap pystr pyval) :
  match calculate_real_cost config with
  | Return cost =>
    config !! py "analysis_type" <> Some PNone
    /\ cost ∈ [10; 15; 30; 45; 50; 75; 100; 150]%Z
    /\ (10 <= cost <= 150)%Z
  | Raise e =>
    config !! py "analysis_type" = Some PNone
    /\ exn_type e = py "AttributeError"
  end.
Proof.
  unfold calculate_real_cost, get.
  destruct (config !! py "analysis_type") as [[|analysis_type]|];
    cbn [default]; [done| |]; cbv zeta;
    unfold mret, outcome_ret;
    (split; [done|]);
    repeat match goal with
           | |- context [if ?b then _ else _] => destruct b
           end;
    (split; [cbn; set_solver|vm_compute; split; discriminate]).
Qed.

End TypeFacts.

Section TypeExtras.
Context {U : PyUnicode}.

(** X5.  Whatever value the request holds as its analysis type ([None],
    the empty string or any text), [_map_analysis_type] returns one of the
    seven analysis types of the engine. *)
Theorem map_analysis_type_range (frontend_type : pyval) :
  map_analysis_type frontend_type
    ∈ [py "market"; py "financial"; py "expansion"; py "digital";
       py "operations"; py "strategic"; py "complete"].
Proof. apply map_analysis_type_in_types. Qed.

(** X6.  Every label of the mapping is mapped to its own analysis type:
    no label is caught by an entry that comes before it in the loop. *)
Theorem mapping_labels_keep_their_type :
  Forall (fun kv => map_analysis_type (PStr kv.1) = kv.2)
         analysis_type_mapping.
Proof.
  repeat (constructor; [vm_compute; reflexivity|]). constructor.
Qed.

(** X7.  Mapping is idempotent: applied to its own result it returns that
    result, provided [str.lower] leaves the seven (lower-case) analysis
    types alone. *)
Theorem map_analysis_type_idempotent (frontend_type : pyval) :
  Forall (fun t => str_lower t = t) analysis_types ->
  map_analysis_type (PStr (map_analysis_type frontend_type))
  = map_analysis_type frontend_type.
Proof.
  intros Hlower. apply map_analysis_type_fixes.
  - apply map_analysis_type_in_types.
  - rewrite Forall_forall in Hlower. apply Hlower, map_analysis_type_in_types.
Qed.

(** X8.  [_calculate_real_cost] raises only on an analysis type that is
    present and not a string, and then an [AttributeError]; otherwise it
    returns one of eight amounts between 0.10 and 1.50 (in hundredths). *)
Theorem calculate_real_cost_amounts (config : gmap pystr pyval) :
  match calculate_real_cost config with
  | Return cost =>
    config !! py "analysis_type" <> Some PNone
    /\ cost ∈ [10; 15; 30; 45; 50; 75; 100; 150]%Z
    /\ (10 <= cost <= 150)%Z
  | Raise e =>
    config !! py "analysis_type" = Some PNone
    /\ exn_type e = py "AttributeError"
  end.
Proof. apply calculate_real_cost_spec. Qed.

(** X9.  On the real-engine path the cost is 0.10, or 0.30 for the type
    "digital": the configuration carries an English analysis type and no
    additional information, so the factors 10, 5 and 1.5 never apply
    (provided [str.lower] leaves the seven analysis types alone). *)
Theorem real_engine_cost (company_data : request) :
  Forall (fun t => str_lower t = t) analysis_types ->
  let config := build_analysis_config company_data in
  let mapped :=
    map_analysis_type
      (get (entries company_data) (py "analysis_type") (PStr (py "market"))) in
  calculate_real_cost config
  = Return (if bool_decide (mapped = py "digital") then 30%Z else 10%Z).
Proof.
  intros Hlower. cbv zeta.
  unfold calculate_real_cost, get at 1.
  rewrite config_analysis_type, config_no_additional_info.
  cbn [default from_option id]. cbv beta iota zeta.
  set (mapped := map_analysis_type _).
  assert (Hmapped : mapped ∈ analysis_types)
    by apply map_analysis_type_in_types.
  rewrite Forall_forall in Hlower. rewrite (Hlower mapped Hmapped).
  clearbody mapped. pattern mapped.
  apply (analysis_types_cases _ mapped Hmapped); vm_compute; reflexivity.
Qed.

End TypeExtras.

(** X10.  The agents listed for a mapped analysis type are never the
    fallback "Agente Generalista": every type [_map_analysis_type] can
    return has its own team, of three or of five agents. *)
Theorem mapped_type_has_agents `{U : PyUnicode} (frontend_type : pyval) :
  let agents := get_agents_for_type (map_analysis_type frontend_type) in
  agents <> [py "Agente Generalista"]
  /\ (length agents = 3 \/ length agents = 5)
  /\ (length agents = 5
      <-> map_analysis_type frontend_type = py "complete").
Proof.
  cbv zeta.
  generalize (map_analysis_type_in_types frontend_type).
  generalize (map_analysis_type frontend_type). intros t Ht. pattern t.
  apply (analysis_types_cases _ t Ht);
    (split; [by vm_compute|]);
    (split; [vm_compute; auto|]);
    (split; intros H; vm_compute in H; try discriminate; vm_compute;
     reflexivity).
Qed.

(** X11.  Every estimation [get_cost_estimation] returns, the default
    for an unknown type included, has sound ranges: at least 5 minutes and
    0.10, the minimum strictly below the maximum, at most 40 minutes and
    2.50. *)
Theorem get_cost_estimation_ranges (analysis_type : pystr) :
  let e := get_cost_estimation analysis_type in
  (5 <= time_min e < time_max e)%Z /\ (time_max e <= 40)%Z
  /\ (10 <= cost_min e < cost_max e)%Z /\ (cost_max e <= 250)%Z.
Proof.
  cbv zeta. unfold get_cost_estimation.
  destruct (_ !! analysis_type) as [e|] eqn:E; cbn [default].
  - apply elem_of_list_to_map_2, list_elem_of_In in E.
    cbn [estimations In] in E.
    destruct E as [E|[E|[E|[E|[E|[E|[E|[]]]]]]]];
      injection E as _ <-; cbn; lia.
  - cbn. lia.
Qed.

(** ** Further properties of the chain *)

Section ChainFacts.
Context {U : PyUnicode}.

Lemma source_simulation_not_real : source_simulation <> source_real.
Proof. by vm_compute. Qed.

Lemma source_fallback_not_real : source_fallback <> source_real.
Proof. by vm_compute. Qed.

(** The fields of a record the simulation returns. *)
Lemma create_intelligent_simulation_fields company_data r :
  create_intelligent_simulation company_data = Return r ->
  success r = true /\ error r = None
  /\ source r = Some source_simulation
  /\ simulation_mode r = Some true /\ crew_result r = None
  /\ (exists cost, estimated_cost r = Some cost /\ (10 <= cost)%Z)
  /\ exists a,
       result_analysis r = Some a
       /\ executive_summary a
          = simulation_summary
              (py_str (get (entries company_data) (py "name")
                         (PStr (py "Empresa"))))
              (py_str (get (entries company_data) (py "industry")
                         (PStr (py "General"))))
              (py_str (get (entries company_data) (py "location")
                         (PStr (py "Ubicación"))))
              (py_str (get (entries company_data) (py "analysis_type")
                         (PStr (py "Básico"))))
       /\ recommendations a
          = simulation_recommendations
              (py_str (get (entries company_data) (py "name")
                         (PStr (py "Empresa"))))
              (py_str (get (entries company_data) (py "industry")
                         (PStr (py "General"))))
              (py_str (get (entries company_data) (py "location")
                         (PStr (py "Ubicación")))).
Proof.
  unfold create_intelligent_simulation. cbv zeta.
  pose proof (calculate_real_cost_spec (entries company_data)) as Hcost.
  destruct (calculate_real_cost _) as [cost|e]; [|done].
  destruct Hcost as (_ & _ & Hlow & _).
  unfold mbind, outcome_bind, mret, outcome_ret. cbv beta iota.
  intros <-%Return_inj.
  cbn [success error source simulation_mode crew_result estimated_cost
       result_analysis].
  do 5 (split; [reflexivity|]). split; [by exists cost|].
  eexists. split; [reflexivity|]. split; reflexivity.
Qed.

(** The fields of a record the inner [try] returns. *)
Lemma run_engine_fields engine company_data analysis_config r :
  run_engine engine company_data analysis_config = Return r ->
  success r = true /\ error r = None
  /\ (exists a, result_analysis r = Some a)
  /\ (exists cost, estimated_cost r = Some cost /\ (0 <= cost)%Z)
  /\ ((source r = Some source_real /\ simulation_mode r = Some false
       /\ crew_result r <> None)
      \/ (source r = Some source_fallback /\ simulation_mode r = Some true
          /\ crew_result r = None)).
Proof.
  unfold run_engine, mbind, outcome_bind, mret, outcome_ret.
  destruct (template_name engine _) as [name|e]; [|done].
  destruct (execute_analysis engine _) as [resultado|e]; [|done].
  destruct (is_truthy resultado).
  - pose proof (calculate_real_cost_spec analysis_config) as Hcost.
    destruct (calculate_real_cost _) as [cost|e]; [|done].
    destruct Hcost as (_ & _ & Hlow & _).
    intros <-%Return_inj.
    cbn [success error source simulation_mode crew_result estimated_cost
         result_analysis].
    do 2 (split; [reflexivity|]). split; [by eexists|].
    split; [exists cost; split; [reflexivity|lia]|].
    left. by repeat split.
  - intros <-%Return_inj.
    cbn [create_fallback_result success error source simulation_mode
         crew_result estimated_cost result_analysis].
    do 2 (split; [reflexivity|]). split; [by eexists|].
    split; [by exists 0%Z|]. right. by repeat split.
Qed.

(** The body returns what the engine run returns, or the simulation. *)
Lemma analyze_company_body_origin self company_data r :
  analyze_company_body self company_data = Return r ->
  (exists engine,
     run_engine engine company_data (build_analysis_config company_data)
     = Return r)
  \/ create_intelligent_simulation company_data = Return r.
Proof.
  unfold analyze_company_body. cbv zeta.
  destruct (crewai_real self); [|by right].
  destruct (the_analyzer self) as [engine|]; [|by right].
  destruct (run_engine _ _ _) as [r'|e] eqn:E; [|by right].
  intros <-%Return_inj. left. by exists engine.
Qed.

(** The outcome of [analyze_company] on a ready connector. *)
Lemma analyze_company_ready self company_data :
  components_loaded self = true ->
  analyze_company self company_data
  = match analyze_company_body self company_data with
    | Return r => r
    | Raise e => error_result e
    end.
Proof.
  intros Hready. unfold analyze_company, is_system_ready. by rewrite Hready.
Qed.

(** The engine run with an engine that answers. *)
Lemma run_engine_answer engine company_data name resultado :
  template_name engine
    (map_analysis_type
       (get (entries company_data) (py "analysis_type")
          (PStr (py "market")))) = Return name ->
  execute_analysis engine (build_analysis_config company_data)
    = Return resultado ->
  run_engine engine company_data (build_analysis_config company_data)
  = if is_truthy resultado
    then
      cost ← calculate_real_cost (build_analysis_config company_data);
      mret {| success := true;
              error := None;
              result_analysis := Some (process_crewai_result resultado);
              source := Some source_real;
              estimated_cost := Some cost;
              simulation_mode := Some false;
              crew_result := Some (truncate_500 (text resultado)) |}
    else mret (create_fallback_result company_data
                 (py "Resultado vacío de CrewAI")).
Proof.
  intros Hname Hrun. unfold run_engine, get at 1.
  rewrite config_analysis_type. cbn [default from_option id py_str].
  rewrite Hname, Hrun. reflexivity.
Qed.

End ChainFacts.

Section ChainExtras.
Context {U : PyUnicode}.

(** X12.  The record [analyze_company] returns is of one of two shapes.
    With [success = true] it has no error and has an analysis, a source
    tag, a cost that is not negative and the simulation flag; with
    [success = false] it has an error message and none of the others. *)
Theorem result_record_shape (self : connector) (company_data : request) :
  let r := analyze_company self company_data in
  (success r = true /\ error r = None
   /\ (exists a, result_analysis r = Some a)
   /\ (exists tag, source r = Some tag)
   /\ (exists cost, estimated_cost r = Some cost /\ (0 <= cost)%Z)
   /\ (exists flag, simulation_mode r = Some flag))
  \/ (success r = false /\ (exists msg, error r = Some msg)
      /\ result_analysis r = None /\ source r = None
      /\ estimated_cost r = None /\ simulation_mode r = None
      /\ crew_result r = None).
Proof.
  cbv zeta. unfold analyze_company.
  destruct (negb (is_system_ready self));
    [right; by repeat split; try eexists|].
  destruct (analyze_company_body self company_data) as [r|e] eqn:E;
    [|right; by repeat split; try eexists].
  left. apply analyze_company_body_origin in E as [[engine E]|E].
  - apply run_engine_fields in E as (Hs & He & Ha & Hc & Hsrc).
    split; [exact Hs|]. split; [exact He|]. split; [exact Ha|].
    destruct Hsrc as [(-> & -> & _)|(-> & -> & _)];
      (split; [by eexists|]); (split; [exact Hc|by eexists]).
  - apply create_intelligent_simulation_fields
      in E as (Hs & He & -> & -> & _ & (cost & -> & Hcost) & a & -> & _).
    do 2 (split; [done|]). split; [by eexists|]. split; [by eexists|].
    split; [exists cost; split; [done|lia]|by eexists].
Qed.

(** X13.  The simulation flag and the stored engine text tell a real
    analysis from the rest: the source tag is the real-engine tag exactly
    when [simulation_mode] is [False], and exactly when the record carries
    [crew_result]. *)
Theorem simulation_mode_tells_source (self : connector)
    (company_data : request) :
  let r := analyze_company self company_data in
  (source r = Some source_real <-> simulation_mode r = Some false)
  /\ (source r = Some source_real <-> crew_result r <> None).
Proof.
  cbv zeta. unfold analyze_company.
  destruct (negb (is_system_ready self)); [by split; split|].
  destruct (analyze_company_body self company_data) as [r|e] eqn:E;
    [|by split; split].
  apply analyze_company_body_origin in E as [[engine E]|E].
  - apply run_engine_fields in E as (_ & _ & _ & _ & Hsrc).
    destruct Hsrc as [(-> & -> & Hcrew)|(-> & -> & ->)].
    + by split; split.
    + pose proof source_fallback_not_real.
      split; split; intros Heq; congruence.
  - apply create_intelligent_simulation_fields
      in E as (_ & _ & -> & -> & -> & _).
    pose proof source_simulation_not_real.
    split; split; intros Heq; congruence.
Qed.

(** X14.  When the engine answers with a falsy result, [analyze_company]
    returns the fallback record, for every request: [success] is true, the
    cost is 0 and nothing is computed from the request that could
    raise. *)
Theorem empty_engine_result_gives_fallback (self : connector)
    (engine : analyzer) (company_data : request) name resultado :
  components_loaded self = true ->
  crewai_real self = true ->
  the_analyzer self = Some engine ->
  template_name engine
    (map_analysis_type
       (get (entries company_data) (py "analysis_type")
          (PStr (py "market")))) = Return name ->
  execute_analysis engine (build_analysis_config company_data)
    = Return resultado ->
  is_truthy resultado = false ->
  analyze_company self company_data
  = create_fallback_result company_data (py "Resultado vacío de CrewAI")
  /\ success (analyze_company self company_data) = true
  /\ estimated_cost (analyze_company self company_data) = Some 0%Z.
Proof.
  intros Hready Hreal Hengine Hname Hrun Hfalsy.
  assert (Heq : analyze_company self company_data
                = create_fallback_result company_data
                    (py "Resultado vacío de CrewAI")).
  { rewrite (analyze_company_ready _ _ Hready).
    unfold analyze_company_body. cbv zeta. rewrite Hreal, Hengine.
    rewrite (run_engine_answer _ _ _ _ Hname Hrun), Hfalsy. reflexivity. }
  rewrite Heq. by repeat split.
Qed.

(** X15.  When the engine answers with a truthy result, that result is
    used, for every request (one without a name or with a [None]
    analysis type included): the record is tagged with the real-engine
    source, its analysis is the normalised engine output, the raw text is
    kept whole, and [crew_result] is the text of the result cut to 500
    characters. *)
Theorem engine_result_is_used (self : connector) (engine : analyzer)
    (company_data : request) name resultado :
  components_loaded self = true ->
  crewai_real self = true ->
  the_analyzer self = Some engine ->
  template_name engine
    (map_analysis_type
       (get (entries company_data) (py "analysis_type")
          (PStr (py "market")))) = Return name ->
  execute_analysis engine (build_analysis_config company_data)
    = Return resultado ->
  is_truthy resultado = true ->
  let r := analyze_company self company_data in
  success r = true
  /\ source r = Some source_real
  /\ result_analysis r = Some (process_crewai_result resultado)
  /\ (exists a, result_analysis r = Some a
                /\ raw_result a = Some (selected_text resultado))
  /\ crew_result r = Some (truncate_500 (text resultado))
  /\ simulation_mode r = Some false.
Proof.
  intros Hready Hreal Hengine Hname Hrun Htruthy. cbv zeta.
  rewrite (analyze_company_ready _ _ Hready).
  unfold analyze_company_body. cbv zeta. rewrite Hreal, Hengine.
  rewrite (run_engine_answer _ _ _ _ Hname Hrun), Htruthy.
  destruct (calculate_real_cost_returns (build_analysis_config company_data))
    as [cost ->].
  { by rewrite config_analysis_type. }
  unfold mbind, outcome_bind, mret, outcome_ret. cbv beta iota.
  cbn [success source result_analysis crew_result simulation_mode].
  do 3 (split; [reflexivity|]). split; [|by split].
  eexists. split; reflexivity.
Qed.

(** X16.  The length of the executive summary: that of the text up to
    500 characters, 503 beyond.  The summary and the text agree on their
    first 500 characters, and the summary is longer than the text exactly
    for a text of 501 or 502 characters. *)
Theorem executive_summary_length (resultado : crew_output) :
  let resultado_str := selected_text resultado in
  let summary := executive_summary (process_crewai_result resultado) in
  length summary
  = (if 500 <? length resultado_str then 503 else length resultado_str)
  /\ take 500 summary = take 500 resultado_str
  /\ (length resultado_str < length summary
      <-> length resultado_str = 501 \/ length resultado_str = 502).
Proof.
  cbv zeta. cbn [process_crewai_result executive_summary].
  unfold truncate_500.
  destruct (Nat.ltb_spec 500 (length (selected_text resultado))) as [Hlong|Hshort].
  - assert (Hlen : length (take 500 (selected_text resultado)) = 500)
      by (rewrite length_take; lia).
    split; [|split].
    + rewrite length_app, Hlen. reflexivity.
    + rewrite take_app_le by lia. rewrite take_take. f_equal.
    + rewrite length_app, Hlen.
      change (length (py "...")) with 3. lia.
  - split; [done|]. split; [done|]. lia.
Qed.

End ChainExtras.

(** ** Properties of the form handler *)

Section SessionFacts.

Lemma lookup_foldl_delete (st : gmap pystr session_value) keys k :
  foldl (fun st key => delete key st) st keys !! k
  = if decide (k ∈ keys) then None else st !! k.
Proof.
  revert st. induction keys as [|key keys IH]; intros st; cbn [foldl].
  - rewrite decide_False; [done|]. apply not_elem_of_nil.
  - rewrite IH. destruct (decide (k = key)) as [->|Hne].
    + rewrite lookup_delete_eq, (decide_True (P := key ∈ key :: keys));
        [by case_decide|]. apply list_elem_of_here.
    + rewrite lookup_delete_ne by done.
      destruct (decide (k ∈ keys)) as [Hin|Hnin].
      * rewrite decide_True; [done|]. by apply list_elem_of_further.
      * rewrite decide_False; [done|]. by intros [?|?]%elem_of_cons.
Qed.

Lemma lookup_foldl_insert_other (st : gmap pystr session_value)
    (kvs : list (pystr * session_value)) k :
  k ∉ kvs.*1 ->
  foldl (fun st kv => <[kv.1 := kv.2]> st) st kvs !! k = st !! k.
Proof.
  revert st. induction kvs as [|[k' v'] kvs IH]; intros st Hk; [done|].
  cbn [foldl fst snd]. rewrite fmap_cons in Hk.
  apply not_elem_of_cons in Hk as [Hne Hk].
  rewrite IH by done. by rewrite lookup_insert_ne.
Qed.

Lemma lookup_foldl_insert_key (st : gmap pystr session_value)
    (kvs : list (pystr * session_value)) k v :
  NoDup kvs.*1 -> (k, v) ∈ kvs ->
  foldl (fun st kv => <[kv.1 := kv.2]> st) st kvs !! k = Some v.
Proof.
  revert st. induction kvs as [|[k' v'] kvs IH]; intros st Hnodup Hin.
  - by apply elem_of_nil in Hin.
  - rewrite fmap_cons in Hnodup. apply NoDup_cons in Hnodup as [Hk' Hnodup].
    cbn [foldl fst snd]. apply elem_of_cons in Hin as [[= -> ->]|Hin].
    + rewrite lookup_foldl_insert_other by done. by rewrite lookup_insert_eq.
    + by apply IH.
Qed.

Lemma form_defaults_NoDup : NoDup form_defaults.*1.
Proof. PyStrMoreFacts.by_evaluation. Qed.

Lemma form_defaults_cleared : Forall (fun k => k ∈ keys_to_clear) form_defaults.*1.
Proof. PyStrMoreFacts.by_evaluation. Qed.

(** A key with a default holds it after the reset. *)
Lemma limpiar_formulario_default st k v :
  (k, v) ∈ form_defaults -> limpiar_formulario st !! k = Some v.
Proof.
  intros Hin. unfold limpiar_formulario. cbv zeta.
  by apply lookup_foldl_insert_key; [apply form_defaults_NoDup|].
Qed.

(** Any other key is deleted if it is to be cleared, and kept if not. *)
Lemma limpiar_formulario_other st k :
  k ∉ form_defaults.*1 ->
  limpiar_formulario st !! k
  = if decide (k ∈ keys_to_clear) then None else st !! k.
Proof.
  intros Hk. unfold limpiar_formulario. cbv zeta.
  rewrite lookup_foldl_insert_other by done. apply lookup_foldl_delete.
Qed.

(** Two session states that agree outside the cleared keys reset to the
    same state. *)
Lemma limpiar_formulario_agree st st' :
  (forall k, k ∉ keys_to_clear -> st !! k = st' !! k) ->
  limpiar_formulario st = limpiar_formulario st'.
Proof.
  intros Hagree. apply map_eq. intros k.
  destruct (decide (k ∈ form_defaults.*1)) as [Hin|Hnin].
  - apply list_elem_of_fmap in Hin as ([k' v] & -> & Hin). cbn [fst].
    by rewrite !(limpiar_formulario_default _ _ _ Hin).
  - rewrite !limpiar_formulario_other by done.
    case_decide; [done|]. by apply Hagree.
Qed.

End SessionFacts.

Section FormFacts.
Context {U : PyUnicode}.

Lemma form_request_analysis_type (f : form) :
  exists t, entries (form_request f) !! py "analysis_type" = Some (PStr t).
Proof.
  unfold form_request. cbv zeta. cbn [entries].
  rewrite list_to_map_cons, lookup_insert_eq. by eexists.
Qed.

Lemma form_request_top_keys (f : form) k :
  k ∉ [py "analysis_type"; py "language"; py "priority"] ->
  entries (form_request f) !! k = None.
Proof.
  intros Hk. unfold form_request. cbv zeta. cbn [entries].
  by apply not_elem_of_list_to_map_1.
Qed.

(** The request of the form handler never makes the body raise. *)
Lemma form_request_succeeds (self : connector) (f : form) :
  components_loaded self = true ->
  success (analyze_company self (form_request f)) = true.
Proof.
  intros Hready. rewrite (analyze_company_ready _ _ Hready).
  destruct (analyze_company_body self (form_request f)) as [r|e] eqn:E.
  - by apply analyze_company_body_inv in E as [? _].
  - apply analyze_company_body_raises in E.
    destruct (form_request_analysis_type f) as [t Ht]. congruence.
Qed.

End FormFacts.

Section FormExtras.
Context {U : PyUnicode}.

(** X17.  After [limpiar_formulario] the session state holds neither the
    completion flag nor a stored result, every form field holds its
    default, and every key that is not in the list of keys to clear is as
    before. *)
Theorem limpiar_formulario_resets (st : gmap pystr session_value) :
  limpiar_formulario st !! py "analysis_completed" = None
  /\ limpiar_formulario st !! py "analysis_result" = None
  /\ Forall (fun kv => limpiar_formulario st !! kv.1 = Some kv.2)
            form_defaults
  /\ forall k, k ∉ keys_to_clear -> limpiar_formulario st !! k = st !! k.
Proof.
  split; [|split; [|split]].
  - rewrite limpiar_formulario_other by PyStrMoreFacts.by_evaluation.
    rewrite decide_True; [done|]. PyStrMoreFacts.by_evaluation.
  - rewrite limpiar_formulario_other by PyStrMoreFacts.by_evaluation.
    rewrite decide_True; [done|]. PyStrMoreFacts.by_evaluation.
  - apply Forall_forall. intros [k v] Hin. cbn [fst snd].
    by apply limpiar_formulario_default.
  - intros k Hk. rewrite limpiar_formulario_other.
    + by rewrite decide_False.
    + intros Hin. apply Hk.
      pose proof form_defaults_cleared as Hsub.
      rewrite Forall_forall in Hsub. by apply Hsub.
Qed.

(** X18.  [limpiar_formulario] is idempotent, and it forgets a run: the
    reset after [ejecutar_analisis_empresarial] gives the state the reset
    alone gives. *)
Theorem limpiar_formulario_forgets_run (backend_available : bool)
    (get_backend_connector : outcome connector) (f : form)
    (st : gmap pystr session_value) :
  limpiar_formulario (limpiar_formulario st) = limpiar_formulario st
  /\ limpiar_formulario
       (ejecutar_analisis_empresarial backend_available
          get_backend_connector f st)
     = limpiar_formulario st.
Proof.
  split.
  - apply limpiar_formulario_agree. intros k Hk.
    rewrite limpiar_formulario_other.
    + by rewrite decide_False.
    + intros Hin. apply Hk.
      pose proof form_defaults_cleared as Hsub.
      rewrite Forall_forall in Hsub. by apply Hsub.
  - apply limpiar_formulario_agree. intros k Hk.
    unfold ejecutar_analisis_empresarial.
    destruct (negb backend_available); [done|].
    destruct get_backend_connector as [backend|e]; [|done].
    cbv zeta. destruct (success _); [|done].
    rewrite !lookup_insert_ne; [done| |];
      intros <-; apply Hk; PyStrMoreFacts.by_evaluation.
Qed.

(** X19.  With the backend available and a ready connector, a run of
    [ejecutar_analisis_empresarial] always completes: whatever the form
    holds, the session state ends with the completion flag set and a
    stored result whose [success] is true, so the results are shown. *)
Theorem ejecutar_analisis_empresarial_completes (backend : connector)
    (f : form) (st : gmap pystr session_value) :
  components_loaded backend = true ->
  let st' := ejecutar_analisis_empresarial true (Return backend) f st in
  st' !! py "analysis_completed" = Some (SBool true)
  /\ st' !! py "analysis_result"
     = Some (SResult (analyze_company backend (form_request f)))
  /\ success (analyze_company backend (form_request f)) = true
  /\ forall k, k ∉ [py "analysis_completed"; py "analysis_result"] ->
               st' !! k = st !! k.
Proof.
  intros Hready. cbv zeta. unfold ejecutar_analisis_empresarial.
  cbn [negb]. cbv zeta.
  rewrite (form_request_succeeds _ _ Hready).
  split; [by rewrite lookup_insert_eq|]. split; [|split; [done|]].
  - rewrite lookup_insert_ne by (by vm_compute).
    by rewrite lookup_insert_eq.
  - intros k Hk.
    rewrite !lookup_insert_ne; [done| |]; intros <-; apply Hk;
      PyStrMoreFacts.by_evaluation.
Qed.

(** X20.  The configuration built from a form request carries the
    company name, industry and location as entered, one of the seven
    analysis types, and the language "es" or "en". *)
Theorem form_request_config (f : form) :
  let config := build_analysis_config (form_request f) in
  config !! py "nombre" = Some (PStr (nombre f))
  /\ config !! py "industria" = Some (PStr (industria f))
  /\ config !! py "ubicacion" = Some (PStr (ubicacion f))
  /\ (exists t, config !! py "analysis_type" = Some (PStr t)
                /\ t ∈ analysis_types)
  /\ (config !! py "language" = Some (PStr (py "es"))
      \/ config !! py "language" = Some (PStr (py "en"))).
Proof.
  cbv zeta. unfold build_analysis_config. cbv zeta.
  rewrite !list_to_map_cons.
  split; [|split; [|split; [|split]]].
  - rewrite lookup_insert_eq. reflexivity.
  - rewrite lookup_insert_ne by (by vm_compute).
    rewrite lookup_insert_eq. reflexivity.
  - do 2 (rewrite lookup_insert_ne by (by vm_compute)).
    rewrite lookup_insert_eq. reflexivity.
  - do 4 (rewrite lookup_insert_ne by (by vm_compute)).
    rewrite lookup_insert_eq. eexists. split; [reflexivity|].
    apply map_analysis_type_in_types.
  - do 3 (rewrite lookup_insert_ne by (by vm_compute)).
    rewrite lookup_insert_eq.
    unfold get, form_request. cbv zeta. cbn [entries].
    rewrite !list_to_map_cons.
    rewrite lookup_insert_ne by (by vm_compute).
    rewrite lookup_insert_eq. cbn [default from_option id].
    destruct (PyStr.contains _ _); [by left|by right].
Qed.

(** X21.  Without the engine, the report made for a form request does
    not depend on the company fields entered: the simulation reads the
    top-level keys, which the form handler does not set, and is written
    for "Empresa", "General" and "Ubicación". *)
Theorem form_simulation_ignores_company (self : connector) (f : form) :
  components_loaded self = true ->
  crewai_real self = false ->
  let r := analyze_company self (form_request f) in
  source r = Some source_simulation
  /\ exists a analysis_type,
       result_analysis r = Some a
       /\ executive_summary a
          = simulation_summary (py "Empresa") (py "General") (py "Ubicación")
              analysis_type
       /\ recommendations a
          = simulation_recommendations (py "Empresa") (py "General")
              (py "Ubicación").
Proof.
  intros Hready Hreal. cbv zeta.
  rewrite (analyze_company_ready _ _ Hready).
  unfold analyze_company_body. cbv zeta. rewrite Hreal.
  destruct (create_intelligent_simulation_returns (form_request f))
    as [r Hr].
  { destruct (form_request_analysis_type f) as [t Ht]. congruence. }
  rewrite Hr.
  apply create_intelligent_simulation_fields
    in Hr as (_ & _ & Hsrc & _ & _ & _ & a & Ha & Hsum & Hrecs).
  split; [exact Hsrc|].
  unfold get in Hsum, Hrecs.
  rewrite !(form_request_top_keys f (py "name")),
          !(form_request_top_keys f (py "industry")),
          !(form_request_top_keys f (py "location")) in Hsum, Hrecs
    by PyStrMoreFacts.by_evaluation.
  exists a. eexists. split; [exact Ha|]. split; [exact Hsum|exact Hrecs].
Qed.

(** X22.  A form that passes the validation of the analysis page gives
    a request with a company name: the name is not empty, it is the name
    the configuration carries, and the request is not one without a
    name. *)
Theorem validated_form_has_name (f : form) :
  form_is_valid f = true ->
  nombre f <> []
  /\ build_analysis_config (form_request f) !! py "nombre"
     = Some (PStr (nombre f))
  /\ ~ missing_name (form_request f).
Proof.
  unfold form_is_valid. intros [[Hname _]%andb_true_iff _]%andb_true_iff.
  split; [by destruct (nombre f)|]. split.
  - unfold build_analysis_config. cbv zeta.
    rewrite list_to_map_cons, lookup_insert_eq. reflexivity.
  - intros (_ & _ & Hnested).
    unfold form_request in Hnested. cbv zeta in Hnested.
    cbn [nested] in Hnested.
    destruct (Hnested _ eq_refl) as [Hnombre _].
    rewrite list_to_map_cons, lookup_insert_eq in Hnombre. discriminate.
Qed.

End FormExtras.

(** ** The further properties on concrete inputs *)

Lemma latin1_fixes_analysis_types :
  Forall (fun t => str_lower (PyUnicode:=latin1) t = t) analysis_types.
Proof. repeat (constructor; [vm_compute; reflexivity|]). constructor. Qed.

Lemma low_risk_needs_opportunity_witness :
  PyStr.contains (py "oportunidad")
    (str_lower (PyUnicode:=latin1) (py "Gran oportunidad")) = true.
Proof.
  apply (low_risk_needs_opportunity (U:=latin1) (py "Gran oportunidad")).
  - vm_compute. discriminate.
  - vm_compute. reflexivity.
Defined.

Lemma map_analysis_type_idempotent_witness :
  map_analysis_type (U:=latin1)
    (PStr (map_analysis_type (U:=latin1) (PStr (py "Análisis Financiero"))))
  = map_analysis_type (U:=latin1) (PStr (py "Análisis Financiero")).
Proof.
  apply (map_analysis_type_idempotent (U:=latin1)).
  apply latin1_fixes_analysis_types.
Defined.

Lemma real_engine_cost_witness :
  calculate_real_cost (U:=latin1)
    (build_analysis_config (U:=latin1) (form_request MoreSamples.acme_form))
  = Return 30%Z.
Proof.
  etransitivity.
  - apply (real_engine_cost (U:=latin1) (form_request MoreSamples.acme_form)).
    apply latin1_fixes_analysis_types.
  - vm_compute. reflexivity.
Defined.

Lemma empty_engine_result_gives_fallback_witness :
  success (analyze_company (U:=latin1) MoreSamples.silent_connector
             Samples.none_type_request) = true.
Proof.
  apply (empty_engine_result_gives_fallback (U:=latin1)
           MoreSamples.silent_connector MoreSamples.silent_engine
           Samples.none_type_request (py "Análisis de Mercado")
           MoreSamples.empty_result); reflexivity.
Defined.

Lemma engine_result_is_used_witness :
  source (analyze_company (U:=latin1) MoreSamples.answering_connector
            Samples.none_type_request) = Some source_real.
Proof.
  apply (engine_result_is_used (U:=latin1)
           MoreSamples.answering_connector MoreSamples.answering_engine
           Samples.none_type_request (py "Análisis de Mercado")
           MoreSamples.short_report); reflexivity.
Defined.

Lemma limpiar_formulario_resets_witness :
  limpiar_formulario
    (<[py "tema" := SStr (py "oscuro")]>
       (<[py "analysis_completed" := SBool true]> ∅)) !! py "tema"
  = Some (SStr (py "oscuro")).
Proof.
  etransitivity.
  - apply (limpiar_formulario_resets
             (<[py "tema" := SStr (py "oscuro")]>
                (<[py "analysis_completed" := SBool true]> ∅))).
    PyStrMoreFacts.by_evaluation.
  - vm_compute. reflexivity.
Defined.

Lemma ejecutar_analisis_empresarial_completes_witness :
  ejecutar_analisis_empresarial (U:=latin1) true
    (Return Samples.simulation_connector) MoreSamples.acme_form ∅
    !! py "analysis_completed"
  = Some (SBool true).
Proof.
  apply (ejecutar_analisis_empresarial_completes (U:=latin1)
           Samples.simulation_connector MoreSamples.acme_form ∅).
  reflexivity.
Defined.

Lemma form_simulation_ignores_company_witness :
  source (analyze_company (U:=latin1) Samples.simulation_connector
            (form_request MoreSamples.acme_form))
  = Some source_simulation.
Proof.
  apply (form_simulation_ignores_company (U:=latin1)
           Samples.simulation_connector MoreSamples.acme_form);
    reflexivity.
Defined.

Lemma validated_form_has_name_witness :
  build_analysis_config (U:=latin1) (form_request MoreSamples.acme_form)
    !! py "nombre"
  = Some (PStr (py "Acme")).
Proof.
  apply (validated_form_has_name (U:=latin1) MoreSamples.acme_form).
  vm_compute. reflexivity.
Defined.
